(** * Choi (2011) non-wear time detection

    A shallow embedding of [choi_2011_calculate_non_wear_time]
    (algorithms/non_wear_time/choi_2011.py) and the properties of its
    single-pass scan.

    Activity counts are integers ([Z]); epoch indices are naturals; the
    integer keyword arguments are Python ints ([Z]).  Python's slicing is
    modelled with its clamping and its negative-index wrap-around, indexing
    with [IndexError].  Logging is modelled as a returned list of events. *)

From Stdlib Require Import ZArith List Bool Lia Sorted PeanoNat.
Import ListNotations.

Open Scope Z_scope.

(** ** Errors *)

Inductive result (A : Type) : Type :=
| Ok (a : A)
| IndexError.

Arguments Ok {A} a.
Arguments IndexError {A}.

Definition bind {A B : Type} (r : result A) (k : A -> result B) : result B :=
  match r with
  | Ok a => k a
  | IndexError => IndexError
  end.

Notation "x <- r ;; k" := (bind r (fun x => k))
  (at level 61, r at next level, right associativity).

(** ** Python and numpy primitives *)

Module Py.

(** Normalisation of one slice bound against a sequence of length [len]. *)
Definition norm (len i : Z) : Z :=
  if i <? 0 then Z.max 0 (i + len) else Z.min i len.

(** [l[lo:hi]] *)
Definition slice {A : Type} (l : list A) (lo hi : Z) : list A :=
  let len := Z.of_nat (length l) in
  let lo' := norm len lo in
  let hi' := norm len hi in
  firstn (Z.to_nat (hi' - lo')) (skipn (Z.to_nat lo') l).

(** [l[i]] for a non-negative index *)
Definition index {A : Type} (l : list A) (i : nat) : result A :=
  match nth_error l i with
  | Some x => Ok x
  | None => IndexError
  end.

(** [range(0, n)] *)
Definition range (n : nat) : list nat := seq 0 n.

(** [for i in idx: st = body(st, i)], stopping at the first exception *)
Fixpoint for_each {S : Type} (body : S -> nat -> result S)
         (idx : list nat) (st : S) : result S :=
  match idx with
  | [] => Ok st
  | i :: rest => st' <- body st i ;; for_each body rest st'
  end.

End Py.

Module Np.

(** [a - k], elementwise *)
Definition sub_scalar (a : list Z) (k : Z) : list Z :=
  map (fun x => x - k) a.

(** [(a > 0).sum()] *)
Definition count_pos (a : list Z) : nat :=
  length (filter (fun x => x >? 0) a).

(** [np.ones((n, 1))] *)
Definition ones (n : nat) : list Z := repeat 1 n.

(** [v[lo:hi] = x] for non-negative bounds: the elements at indices
    [lo <= j < hi] are overwritten, the others kept. *)
Fixpoint assign_from (j lo hi : nat) (x : Z) (v : list Z) : list Z :=
  match v with
  | [] => []
  | y :: v' =>
      (if (lo <=? j)%nat && (j <? hi)%nat then x else y)
        :: assign_from (S j) lo hi x v'
  end.

Definition slice_assign (v : list Z) (lo hi : nat) (x : Z) : list Z :=
  assign_from 0 lo hi x v.

End Np.

(** ** Scan state: the local variables of the loop *)

Record state : Type := mkState {
  reset : bool;
  stopped : bool;
  start : bool;
  window_2_invalid : bool;
  strt_nw : nat;
  end_nw : nat;
  cnt_non_zero : nat;
  ranges : list (nat * nat)
}.

Definition init_state : state :=
  mkState false false false false 0 0 0 [].

Definition set_reset (b : bool) (st : state) : state :=
  mkState b (stopped st) (start st) (window_2_invalid st)
          (strt_nw st) (end_nw st) (cnt_non_zero st) (ranges st).

Definition set_stopped (b : bool) (st : state) : state :=
  mkState (reset st) b (start st) (window_2_invalid st)
          (strt_nw st) (end_nw st) (cnt_non_zero st) (ranges st).

Definition set_window_2_invalid (b : bool) (st : state) : state :=
  mkState (reset st) (stopped st) (start st) b
          (strt_nw st) (end_nw st) (cnt_non_zero st) (ranges st).

Definition set_end_nw (n : nat) (st : state) : state :=
  mkState (reset st) (stopped st) (start st) (window_2_invalid st)
          (strt_nw st) n (cnt_non_zero st) (ranges st).

Definition set_cnt_non_zero (n : nat) (st : state) : state :=
  mkState (reset st) (stopped st) (start st) (window_2_invalid st)
          (strt_nw st) (end_nw st) n (ranges st).

Definition set_ranges (r : list (nat * nat)) (st : state) : state :=
  mkState (reset st) (stopped st) (start st) (window_2_invalid st)
          (strt_nw st) (end_nw st) (cnt_non_zero st) r.

(** ** Configuration: the integer keyword arguments *)

Record config : Type := mkConfig {
  activity_threshold : Z;
  min_period_len : Z;
  spike_tolerance : Z;
  min_window_len : Z
}.

Definition default_config : config := mkConfig 0 90 2 30.

(** ** The loop body, statement by statement *)

Section Scan.

Variable data : list Z.
Variable cfg : config.

(** [if reset or stopped: ...] *)
Definition reset_counters (st : state) : state :=
  if reset st || stopped st
  then mkState false false false false 0 0 0 (ranges st)
  else st.

(** [if paxinten == 0 and start == False: ...] *)
Definition open_period (paxn : nat) (paxinten : Z) (st : state) : state :=
  if (paxinten =? 0) && Bool.eqb (start st) false
  then mkState (reset st) (stopped st) true (window_2_invalid st)
               paxn (end_nw st) (cnt_non_zero st) (ranges st)
  else st.

(** [if paxinten > 0: cnt_non_zero += 1] *)
Definition count_spike (paxinten : Z) (st : state) : state :=
  if paxinten >? 0
  then set_cnt_non_zero (cnt_non_zero st + 1)%nat st
  else st.

(** [data[paxn + spike_tolerance: paxn + min_window_len + 1]] *)
Definition upstream (paxn : nat) : list Z :=
  Py.slice data (Z.of_nat paxn + spike_tolerance cfg)
                (Z.of_nat paxn + min_window_len cfg + 1).

(** [data[paxn - min_window_len if paxn - min_window_len > 0 else 0: paxn - 1]] *)
Definition downstream (paxn : nat) : list Z :=
  Py.slice data
           (if Z.of_nat paxn - min_window_len cfg >? 0
            then Z.of_nat paxn - min_window_len cfg else 0)
           (Z.of_nat paxn - 1).

(** One of the two window checks of epoch [paxn] finds a count. *)
Definition window_check_fails (paxn : nat) : bool :=
  (0 <? Np.count_pos (upstream paxn))%nat
  || (0 <? Np.count_pos (downstream paxn))%nat.

(** The second [if paxinten > 0:] block: both window checks, then the
    scheduling of the reset. *)
Definition check_windows (paxn : nat) (paxinten : Z) (st : state) : state :=
  if paxinten >? 0 then
    let st1 := if (0 <? Np.count_pos (upstream paxn))%nat
               then set_window_2_invalid true st else st in
    let st2 := if (0 <? Np.count_pos (downstream paxn))%nat
               then set_window_2_invalid true st1 else st1 in
    if window_2_invalid st2 then set_reset true st2 else st2
  else st.

(** [if paxinten == 0: cnt_non_zero = 0] *)
Definition clear_spikes (paxinten : Z) (st : state) : state :=
  if paxinten =? 0 then set_cnt_non_zero 0 st else st.

(** The third disjunct of the close condition, [paxn == len(data -1)]. *)
Definition last_value_trigger (paxn : nat) : bool :=
  (paxn =? length (Np.sub_scalar data 1))%nat.

(** [cnt_non_zero == 3 or window_2_invalid or paxn == len(data -1)] *)
Definition end_trigger (paxn : nat) (st : state) : bool :=
  (cnt_non_zero st =? 3)%nat || window_2_invalid st || last_value_trigger paxn.

(** The body of the close condition: [end_nw = paxn], then the length test. *)
Definition end_period (paxn : nat) (st : state) : state :=
  let st1 := set_end_nw paxn st in
  if Z.of_nat (length (Py.slice data (Z.of_nat (strt_nw st1))
                                     (Z.of_nat (end_nw st1))))
     <? min_period_len cfg
  then set_reset true st1
  else set_stopped true st1.

Definition close_period (paxn : nat) (st : state) : state :=
  if end_trigger paxn st then end_period paxn st else st.

(** [if stopped: ranges.append([strt_nw, end_nw])] *)
Definition save_range (st : state) : state :=
  if stopped st
  then set_ranges (ranges st ++ [(strt_nw st, end_nw st)]) st
  else st.

(** The [if start:] block. *)
Definition started_block (paxn : nat) (paxinten : Z) (st : state) : state :=
  save_range
    (close_period paxn
       (clear_spikes paxinten
          (check_windows paxn paxinten
             (count_spike paxinten st)))).

Definition loop_body (st : state) (paxn : nat) : result state :=
  paxinten <- Py.index data paxn ;;
  let st1 := reset_counters st in
  let st2 := open_period paxn paxinten st1 in
  Ok (if start st2 then started_block paxn paxinten st2 else st2).

(** [for paxn in range(0, len(data)): ...] *)
Definition find_non_wear_periods : result state :=
  Py.for_each loop_body (Py.range (length data)) init_state.

End Scan.

(** ** The whole function *)

(** What the function hands to [logging]. *)
Inductive log_event : Type :=
| LogInsufficient (n_samples : nat) (min_len : Z)
| LogRange (start_index end_index : nat) (duration : Z)
| LogTime (start_time end_time : Z)
| LogValues (values : list Z).

(** One epoch of raw data: the counts of axis 1, 2 and 3. *)
Definition epoch : Type := (Z * Z * Z)%type.

(** [data[:,0]] *)
Definition axis1 (data : list epoch) : list Z :=
  map (fun e => fst (fst e)) data.

Section Detector.

(** [functions.helper_functions.calculate_vector_magnitude], imported by the
    module and called as
    [calculate_vector_magnitude(data, minus_one = False, round_negative_to_zero = False)]. *)
Variable calculate_vector_magnitude : list epoch -> bool -> bool -> list Z.

Variable time : list Z.
Variable print_output : bool.

(** The three [logging.debug] calls of the final loop. *)
Definition log_row (data : list Z) (row : nat * nat) : result (list log_event) :=
  if print_output then
    t0 <- Py.index time (fst row) ;;
    t1 <- Py.index time (snd row) ;;
    Ok [ LogRange (fst row) (snd row) (Z.of_nat (snd row) - Z.of_nat (fst row));
         LogTime t0 t1;
         LogValues (Py.slice data (Z.of_nat (fst row)) (Z.of_nat (snd row))) ]
  else Ok [].

(** [for row in ranges: ...] *)
Fixpoint write_ranges (data : list Z) (rows : list (nat * nat))
         (non_wear_vector : list Z) (log : list log_event)
  : result (list Z * list log_event) :=
  match rows with
  | [] => Ok (non_wear_vector, log)
  | row :: rest =>
      msgs <- log_row data row ;;
      write_ranges data rest
                   (Np.slice_assign non_wear_vector (fst row) (snd row) 0)
                   (log ++ msgs)
  end.

Definition choi_2011_calculate_non_wear_time
           (data : list epoch) (cfg : config) (use_vector_magnitude : bool)
  : result (list Z * list log_event) :=
  let log :=
    if Z.of_nat (length data) <? min_period_len cfg
    then [LogInsufficient (length data) (min_period_len cfg)]
    else [] in
  let non_wear_vector := Np.ones (length data) in
  let data1 :=
    if use_vector_magnitude
    then calculate_vector_magnitude data false false
    else axis1 data in
  st <- find_non_wear_periods data1 cfg ;;
  write_ranges data1 (ranges st) non_wear_vector log.

End Detector.

(** The returned [non_wear_vector], when the call returns. *)
Definition mask_of (r : result (list Z * list log_event)) : option (list Z) :=
  match r with
  | Ok (v, _) => Some v
  | IndexError => None
  end.

(** Raw data whose first axis carries the given counts. *)
Definition on_axis1 (counts : list Z) : list epoch :=
  map (fun c => (c, 0, 0)) counts.

(** ** Notions used in the statements *)

(** [r1] ends strictly before [r2] starts. *)
Definition before (r1 r2 : nat * nat) : Prop := (snd r1 < fst r2)%nat.

(** An accepted range: non-empty, long enough, and closed before epoch [n]. *)
Definition range_ok (cfg : config) (n : nat) (r : nat * nat) : Prop :=
  (fst r < snd r)%nat /\
  min_period_len cfg <= Z.of_nat (snd r) - Z.of_nat (fst r) /\
  (snd r < n)%nat.

(** What holds of the loop variables before the iteration for epoch [n]. *)
Record scan_inv (cfg : config) (n : nat) (st : state) : Prop := mkInv {
  inv_ranges : Forall (range_ok cfg n) (ranges st);
  inv_sorted : StronglySorted before (ranges st);
  inv_invalid : window_2_invalid st = true -> reset st = true;
  inv_idle : start st = false -> cnt_non_zero st = 0%nat;
  inv_open : start st = true -> reset st || stopped st = false ->
             (strt_nw st < n)%nat /\
             Forall (fun r => (snd r < strt_nw st)%nat) (ranges st)
}.

(** The loop variables on entry to the iteration for epoch [paxn]. *)
Definition state_before (data : list Z) (cfg : config) (paxn : nat)
  : result state :=
  Py.for_each (loop_body data cfg) (seq 0 paxn) init_state.

(** A period is open once the first two statements of the iteration ran. *)
Definition period_open (paxn : nat) (paxinten : Z) (st : state) : bool :=
  start (open_period paxn paxinten (reset_counters st)).

(** The reading of the specification: a failed window check at a spike of an
    open period leaves the list of ranges as it was. *)
Definition discards_on_invalid_window : Prop :=
  forall (data : list Z) (cfg : config) (paxn : nat) (x : Z) (st st' : state),
    state_before data cfg paxn = Ok st ->
    nth_error data paxn = Some x ->
    0 < x ->
    period_open paxn x st = true ->
    window_check_fails data cfg paxn = true ->
    loop_body data cfg st paxn = Ok st' ->
    ranges st' = ranges st.

(** A hundred zero counts, a spike, and a second spike two epochs later. *)
Definition two_close_spikes : list Z := repeat 0 100 ++ [50; 0; 50].

(** A hundred zero counts, one count of 50, a hundred zero counts. *)
Definition tolerated_spike : list Z := repeat 0 100 ++ [50] ++ repeat 0 100.

(** [r1] lies before [r2]: it starts earlier and, as a half-open range,
    ends where [r2] starts at the latest. *)
Definition disjoint_increasing (r1 r2 : nat * nat) : Prop :=
  (fst r1 < fst r2)%nat /\ (snd r1 <= fst r2)%nat.

(** A range is not empty and spans [min_period_len] epochs at least. *)
Definition long_enough (cfg : config) (r : nat * nat) : Prop :=
  (fst r < snd r)%nat /\
  min_period_len cfg <= Z.of_nat (snd r) - Z.of_nat (fst r).

(** A spike at epoch 40 and a count of 3 at epoch 43. *)
Definition low_count_in_window : list Z :=
  repeat 0 40 ++ [50; 0; 0; 3] ++ repeat 0 40.

(** The vector after the assignments of the final loop. *)
Definition apply_ranges (rows : list (nat * nat)) (v : list Z) : list Z :=
  fold_left (fun v row => Np.slice_assign v (fst row) (snd row) 0) rows v.

(** An integer instance of the vector magnitude, for the examples: the floor
    of the Euclidean norm of the three axes. *)
Definition floor_vector_magnitude
           (data : list epoch) (minus_one round_negative_to_zero : bool) : list Z :=
  map (fun e => Z.sqrt (fst (fst e) * fst (fst e)
                        + snd (fst e) * snd (fst e)
                        + snd e * snd e)) data.

(** Counts and timestamps of different lengths, or a negative count. *)
Definition malformed (data : list epoch) (time : list Z) : Prop :=
  length time <> length data \/ Exists (fun e => fst (fst e) < 0) data.

(** The reading of the specification: malformed input is refused, and
    well-formed input gets a vector for the whole input. *)
Definition validates_at_boundary : Prop :=
  forall (calculate_vector_magnitude : list epoch -> bool -> bool -> list Z)
         (time : list Z) (print_output : bool)
         (data : list epoch) (cfg : config) (use_vector_magnitude : bool),
    let r := choi_2011_calculate_non_wear_time
               calculate_vector_magnitude time print_output
               data cfg use_vector_magnitude in
    (malformed data time -> mask_of r = None) /\
    (~ malformed data time ->
     exists v, mask_of r = Some v /\ length v = length data).

(** A spike at epoch 1 whose upstream window reaches the last epoch. *)
Definition spike_near_start : list Z := [0; 5; 0; 7].

(** Epoch [k] lies in one of the half-open ranges [[start, end)]. *)
Definition covered (rows : list (nat * nat)) (k : nat) : bool :=
  existsb (fun row => (fst row <=? k)%nat && (k <? snd row)%nat) rows.

(** The range starts at an epoch with count 0 and ends at a spike. *)
Definition zero_to_spike (data : list Z) (r : nat * nat) : Prop :=
  nth_error data (fst r) = Some 0 /\
  exists x, nth_error data (snd r) = Some x /\ 0 < x.

(** What holds of the recorded ranges and of an open period with respect to
    the counts. *)
Record ends_inv (data : list Z) (st : state) : Prop := mkEnds {
  ends_ranges : Forall (zero_to_spike data) (ranges st);
  ends_open : start st = true -> reset st || stopped st = false ->
              nth_error data (strt_nw st) = Some 0 /\
              (cnt_non_zero st <= 2)%nat
}.

(** The three entries logged for one range when its timestamps exist. *)
Definition debug_entries (time : list Z) (data : list Z) (row : nat * nat)
  : list log_event :=
  [ LogRange (fst row) (snd row) (Z.of_nat (snd row) - Z.of_nat (fst row));
    LogTime (nth (fst row) time 0) (nth (snd row) time 0);
    LogValues (Py.slice data (Z.of_nat (fst row)) (Z.of_nat (snd row))) ].

(** The diagnostic of the length test. *)
Definition length_diagnostic (n : nat) (cfg : config) : list log_event :=
  if Z.of_nat n <? min_period_len cfg
  then [LogInsufficient n (min_period_len cfg)]
  else [].

(** The elements of [l] at the indices [lo <= j < hi] that exist: a window
    whose parts outside the sequence count as empty. *)
Definition clamped_slice {A : Type} (l : list A) (lo hi : Z) : list A :=
  let first := Z.max lo 0 in
  let stop := Z.min hi (Z.of_nat (length l)) in
  firstn (Z.to_nat (stop - first)) (skipn (Z.to_nat first) l).

(** The reading of the specification: at every spike of an open period the
    two windows are the existing epochs of
    [paxn + spike_tolerance .. paxn + min_window_len] and of
    [max(0, paxn - min_window_len) .. paxn - 2], for every configuration. *)
Definition window_reads_bounds_checked : Prop :=
  forall (data : list Z) (cfg : config) (paxn : nat) (x : Z) (st : state),
    state_before data cfg paxn = Ok st ->
    nth_error data paxn = Some x ->
    0 < x ->
    period_open paxn x st = true ->
    upstream data cfg paxn
    = clamped_slice data (Z.of_nat paxn + spike_tolerance cfg)
                         (Z.of_nat paxn + min_window_len cfg + 1) /\
    downstream data cfg paxn
    = clamped_slice data (Z.max 0 (Z.of_nat paxn - min_window_len cfg))
                         (Z.of_nat paxn - 1).

(** Negative window parameters: the upstream slice of epoch 1 is
    [data[0:-1]]. *)
Definition wrapping_config : config := mkConfig 0 1 (-1) (-3).

(** The reading of the specification: the returned vector is the same for
    every timestamps argument and every [print_output]. *)
Definition mask_ignores_time_and_logging : Prop :=
  forall (calculate_vector_magnitude : list epoch -> bool -> bool -> list Z)
         (data : list epoch) (cfg : config) (use_vector_magnitude : bool)
         (time1 time2 : list Z) (print_output1 print_output2 : bool),
    mask_of (choi_2011_calculate_non_wear_time
               calculate_vector_magnitude time1 print_output1
               data cfg use_vector_magnitude)
    = mask_of (choi_2011_calculate_non_wear_time
                 calculate_vector_magnitude time2 print_output2
                 data cfg use_vector_magnitude).

(** A timestamp is missing for the end of one of the ranges. *)
Definition lookup_fails (time : list Z) (rows : list (nat * nat)) : bool :=
  existsb (fun row => (length time <=? snd row)%nat) rows.

(** * Properties of the primitives *)

Lemma norm_nonneg (len i : Z) :
  0 <= i -> Py.norm len i = Z.min i len.
Proof.
  intros Hi. unfold Py.norm.
  destruct (i <? 0) eqn:E; [apply Z.ltb_lt in E; lia | reflexivity].
Qed.

Lemma slice_length_inside {A : Type} (l : list A) (lo hi : nat) :
  (lo <= hi)%nat -> (hi <= length l)%nat ->
  length (Py.slice l (Z.of_nat lo) (Z.of_nat hi)) = (hi - lo)%nat.
Proof.
  intros Hlo Hhi. unfold Py.slice.
  rewrite !norm_nonneg by lia.
  rewrite length_firstn, length_skipn. lia.
Qed.

(** A slice with non-negative bounds holds the elements at the indices
    [lo <= j < hi] that exist, in order, and nothing else. *)
Lemma slice_nth_error {A : Type} (l : list A) (lo hi : Z) (k : nat) :
  0 <= lo -> 0 <= hi ->
  nth_error (Py.slice l lo hi) k =
  if lo + Z.of_nat k <? hi then nth_error l (Z.to_nat lo + k) else None.
Proof.
  intros Hlo Hhi. unfold Py.slice.
  rewrite !norm_nonneg by lia.
  rewrite nth_error_firstn, nth_error_skipn.
  set (len := Z.of_nat (length l)).
  destruct (lo + Z.of_nat k <? hi) eqn:E.
  - apply Z.ltb_lt in E.
    destruct (Z_lt_le_dec (lo + Z.of_nat k) len) as [Hin | Hout].
    + replace (k <? Z.to_nat (Z.min hi len - Z.min lo len))%nat with true
        by (symmetry; apply Nat.ltb_lt; lia).
      f_equal. lia.
    + destruct (k <? Z.to_nat (Z.min hi len - Z.min lo len))%nat eqn:E2.
      * apply Nat.ltb_lt in E2. unfold len in *. lia.
      * symmetry. apply nth_error_None. unfold len in *. lia.
  - apply Z.ltb_ge in E.
    replace (k <? Z.to_nat (Z.min hi len - Z.min lo len))%nat with false
      by (symmetry; apply Nat.ltb_ge; lia).
    reflexivity.
Qed.

Lemma count_pos_spec (a : list Z) :
  (0 <? Np.count_pos a)%nat = true <->
  exists k x, nth_error a k = Some x /\ 0 < x.
Proof.
  unfold Np.count_pos. rewrite Nat.ltb_lt. split.
  - intros Hlen.
    destruct (filter (fun x => x >? 0) a) as [|x rest] eqn:E;
      [simpl in Hlen; lia|].
    assert (Hin : In x (filter (fun x => x >? 0) a)) by (rewrite E; left; reflexivity).
    apply filter_In in Hin. destruct Hin as [Hin Hpos].
    apply In_nth_error in Hin. destruct Hin as [k Hk].
    exists k, x. split; [exact Hk | apply Z.gtb_lt in Hpos; lia].
  - intros (k & x & Hk & Hpos).
    assert (Hin : In x (filter (fun x => x >? 0) a)).
    { apply filter_In. split; [eapply nth_error_In; eassumption|].
      apply Z.gtb_lt. lia. }
    destruct (filter (fun x => x >? 0) a); [destruct Hin | simpl; lia].
Qed.

Lemma sub_scalar_length (a : list Z) (k : Z) :
  length (Np.sub_scalar a k) = length a.
Proof. unfold Np.sub_scalar. apply length_map. Qed.

Lemma index_in_range {A : Type} (l : list A) (i : nat) :
  (i < length l)%nat -> exists x, Py.index l i = Ok x /\ nth_error l i = Some x.
Proof.
  intros Hi. unfold Py.index.
  destruct (nth_error l i) as [x|] eqn:E.
  - exists x. split; reflexivity.
  - apply nth_error_None in E. lia.
Qed.

(** Loop invariants for [for i in range(0, len)]. *)
Lemma for_each_seq_invariant {S : Type} (body : S -> nat -> result S)
      (I : nat -> S -> Prop) (len : nat) :
  (forall n st, (n < len)%nat -> I n st ->
                exists st', body st n = Ok st' /\ I (Datatypes.S n) st') ->
  forall k a st, (a + k = len)%nat -> I a st ->
  exists st', Py.for_each body (seq a k) st = Ok st' /\ I len st'.
Proof.
  intros Hstep. induction k as [|k IH]; intros a st Hlen Ha.
  - exists st. split; [reflexivity|]. replace len with a by lia. exact Ha.
  - destruct (Hstep a st ltac:(lia) Ha) as (st1 & Hb & H1).
    destruct (IH (Datatypes.S a) st1 ltac:(lia) H1) as (st2 & Hf & H2).
    exists st2. split; [|exact H2].
    simpl. rewrite Hb. simpl. exact Hf.
Qed.

Lemma for_each_range_invariant {S : Type} (body : S -> nat -> result S)
      (I : nat -> S -> Prop) (len : nat) :
  (forall n st, (n < len)%nat -> I n st ->
                exists st', body st n = Ok st' /\ I (Datatypes.S n) st') ->
  forall st, I 0%nat st ->
  exists st', Py.for_each body (Py.range len) st = Ok st' /\ I len st'.
Proof.
  intros Hstep st H0. unfold Py.range.
  apply for_each_seq_invariant with (I := I); auto.
Qed.

(** * The scan invariant *)

Lemma sorted_snoc (l : list (nat * nat)) (r : nat * nat) :
  StronglySorted before l ->
  Forall (fun r1 => before r1 r) l ->
  StronglySorted before (l ++ [r]).
Proof.
  induction 1 as [|a l Hs IH Ha]; intros Hall; simpl.
  - constructor; constructor.
  - inversion Hall as [|? ? Har Hlr]; subst.
    constructor; [apply IH; exact Hlr|].
    apply Forall_app. split; [exact Ha|].
    constructor; [exact Har | constructor].
Qed.

Ltac state_fields_in_all :=
  cbn [reset stopped start window_2_invalid strt_nw end_nw cnt_non_zero
       ranges] in *.

Ltac state_fields :=
  cbn [reset stopped start window_2_invalid strt_nw end_nw cnt_non_zero
       ranges set_reset set_stopped set_window_2_invalid set_end_nw
       set_cnt_non_zero set_ranges andb orb negb Bool.eqb].

Section ScanInvariant.

Variable data : list Z.
Variable cfg : config.

Lemma range_ok_mono (n m : nat) (l : list (nat * nat)) :
  (n <= m)%nat -> Forall (range_ok cfg n) l -> Forall (range_ok cfg m) l.
Proof.
  intros Hnm. apply Forall_impl. intros r (H1 & H2 & H3).
  repeat split; try assumption. lia.
Qed.

Lemma range_ok_ends (n : nat) (l : list (nat * nat)) :
  Forall (range_ok cfg n) l -> Forall (fun r => (snd r < n)%nat) l.
Proof. apply Forall_impl. intros r (_ & _ & H). exact H. Qed.

Lemma ends_before (s e : nat) (l : list (nat * nat)) :
  Forall (fun r => (snd r < s)%nat) l -> Forall (fun r => before r (s, e)) l.
Proof. apply Forall_impl. intros r H. exact H. Qed.

Lemma last_value_trigger_false (paxn : nat) :
  (paxn < length data)%nat -> last_value_trigger data paxn = false.
Proof.
  intros H. unfold last_value_trigger. rewrite sub_scalar_length.
  apply Nat.eqb_neq. lia.
Qed.

Lemma scan_inv_init : scan_inv cfg 0 init_state.
Proof.
  constructor; simpl; try constructor; try discriminate; auto.
Qed.

(** The [if start:] block, entered with no reset pending. *)
Lemma started_block_eq (n : nat) (x : Z) (s e c : nat) (rg : list (nat * nat)) :
  started_block data cfg n x (mkState false false true false s e c rg) =
  let w := (x >? 0) && window_check_fails data cfg n in
  let c' := if x =? 0 then 0%nat else if x >? 0 then (c + 1)%nat else c in
  if (c' =? 3)%nat || w || last_value_trigger data n
  then if Z.of_nat (length (Py.slice data (Z.of_nat s) (Z.of_nat n)))
          <? min_period_len cfg
       then mkState true false true w s n c' rg
       else mkState w true true w s n c' (rg ++ [(s, n)])
  else mkState w false true w s e c' rg.
Proof.
  unfold started_block, save_range, close_period, end_period, end_trigger,
    clear_spikes, check_windows, count_spike, window_check_fails.
  cbv zeta.
  generalize (last_value_trigger data n) as l.
  generalize (0 <? Np.count_pos (upstream data cfg n))%nat as u.
  generalize (0 <? Np.count_pos (downstream data cfg n))%nat as d.
  intros d u l.
  destruct (x >? 0); destruct (x =? 0); destruct u; destruct d; state_fields;
    match goal with
    | |- context [(?a =? 3)%nat] => destruct (a =? 3)%nat
    end;
    destruct l; state_fields;
    try match goal with
        | |- context [?a <? min_period_len cfg] =>
            destruct (a <? min_period_len cfg)
        end;
    state_fields; reflexivity.
Qed.

(** The [if start:] block keeps the invariant when the period started at
    [s <= n], a period opened at this very epoch having seen no spike. *)
Lemma started_block_inv (n : nat) (x : Z) (s e c : nat) (rg : list (nat * nat)) :
  (n < length data)%nat ->
  Forall (range_ok cfg n) rg ->
  StronglySorted before rg ->
  (s <= n)%nat ->
  (s = n -> x = 0 /\ c = 0%nat) ->
  Forall (fun r => (snd r < s)%nat) rg ->
  scan_inv cfg (S n)
    (started_block data cfg n x (mkState false false true false s e c rg)).
Proof.
  intros Hn Hr Hs Hsn Hnew Hends.
  assert (Hr' := range_ok_mono n (S n) rg ltac:(lia) Hr).
  rewrite started_block_eq. cbv zeta.
  rewrite (last_value_trigger_false n Hn), orb_false_r.
  destruct (x =? 0) eqn:Ex0.
  - (* a zero count: the spike counter is cleared, nothing closes *)
    apply Z.eqb_eq in Ex0. subst x. cbn [Z.gtb Z.compare andb Nat.eqb orb].
    constructor; state_fields; auto; try discriminate.
    intros _ _. split; [lia | exact Hends].
  - (* a spike, or a negative count *)
    assert (Hsn' : (s < n)%nat).
    { destruct (Nat.eq_dec s n) as [E|E]; [|lia].
      destruct (Hnew E) as [Hx _]. apply Z.eqb_neq in Ex0. lia. }
    rewrite (slice_length_inside data s n) by lia.
    generalize ((x >? 0) && window_check_fails data cfg n) as w.
    generalize (if x >? 0 then (c + 1)%nat else c) as c'.
    intros c' w.
    destruct ((c' =? 3)%nat || w);
      [destruct (Z.of_nat (n - s) <? min_period_len cfg) eqn:Elen|];
      constructor; state_fields; auto; try discriminate;
      try (intros _ Hpending; rewrite orb_true_r in Hpending;
           discriminate Hpending);
      try (intros _ _; split; [lia | exact Hends]).
    + apply Z.ltb_ge in Elen.
      apply Forall_app. split; [exact Hr'|].
      constructor; [|constructor]. unfold range_ok. cbn [fst snd]. lia.
    + apply sorted_snoc; [exact Hs | apply ends_before; exact Hends].
Qed.

Lemma loop_body_inv (n : nat) (st : state) :
  (n < length data)%nat -> scan_inv cfg n st ->
  exists st', loop_body data cfg st n = Ok st' /\ scan_inv cfg (S n) st'.
Proof.
  intros Hn [Hr Hs Hi Hd Ho].
  destruct (index_in_range data n Hn) as (x & Hx & _).
  unfold loop_body. rewrite Hx. cbn [bind]. eexists; split; [reflexivity|].
  assert (Hr' := range_ok_mono n (S n) _ ltac:(lia) Hr).
  assert (Hends := range_ok_ends n _ Hr).
  destruct st as [rs sp sta w2 s e c rg]. state_fields_in_all.
  unfold reset_counters. state_fields.
  destruct (rs || sp) eqn:Ep.
  - (* the previous period was closed or discarded: start afresh *)
    unfold open_period. state_fields.
    destruct (x =? 0) eqn:Ex0; state_fields.
    + apply started_block_inv; auto.
      intros _. apply Z.eqb_eq in Ex0. auto.
    + constructor; state_fields; auto; discriminate.
  - apply orb_false_elim in Ep. destruct Ep as [-> ->].
    assert (w2 = false) as -> by (destruct w2; auto; discriminate (Hi eq_refl)).
    unfold open_period. state_fields.
    destruct sta; state_fields.
    + destruct (Ho eq_refl eq_refl) as [Hsn Hbefore].
      rewrite andb_false_r.
      apply started_block_inv; auto; lia.
    + rewrite (Hd eq_refl), andb_true_r.
      destruct (x =? 0) eqn:Ex0; state_fields.
      * apply started_block_inv; auto.
        intros _. apply Z.eqb_eq in Ex0. auto.
      * constructor; state_fields; auto; discriminate.
Qed.

(** The scan returns, and its final state satisfies the invariant. *)
Lemma find_non_wear_periods_inv :
  exists st, find_non_wear_periods data cfg = Ok st /\
             scan_inv cfg (length data) st.
Proof.
  unfold find_non_wear_periods.
  apply for_each_range_invariant with (I := scan_inv cfg).
  - intros n st Hn Hinv. apply loop_body_inv; assumption.
  - apply scan_inv_init.
Qed.

End ScanInvariant.

(** * One iteration, seen from an open period *)

Section Iteration.

Variable data : list Z.
Variable cfg : config.

Lemma state_before_inv (paxn : nat) (st : state) :
  (paxn <= length data)%nat ->
  state_before data cfg paxn = Ok st -> scan_inv cfg paxn st.
Proof.
  intros Hle Hst. unfold state_before in Hst.
  destruct (for_each_seq_invariant (loop_body data cfg) (scan_inv cfg) paxn)
    with (k := paxn) (a := 0%nat) (st := init_state)
    as (st' & Hrun & Hinv).
  - intros n st0 Hn Hinv. apply loop_body_inv; [lia | exact Hinv].
  - reflexivity.
  - apply scan_inv_init.
  - rewrite Hst in Hrun. injection Hrun as <-. exact Hinv.
Qed.

(** After the reset and the opening test nothing is pending; an open period
    started at or before this epoch, and at this epoch only on a zero. *)
Lemma enter_iteration (n : nat) (x : Z) (st : state) :
  scan_inv cfg n st ->
  exists sta s e c,
    open_period n x (reset_counters st)
    = mkState false false sta false s e c (ranges st) /\
    (sta = true ->
     (s <= n)%nat /\ (s = n -> x = 0 /\ c = 0%nat) /\
     Forall (fun r => (snd r < s)%nat) (ranges st)).
Proof.
  intros [Hr Hs Hi Hd Ho].
  assert (Hends := range_ok_ends cfg n _ Hr).
  destruct st as [rs sp sta w2 s e c rg]. state_fields_in_all.
  unfold reset_counters, open_period. state_fields.
  destruct (rs || sp) eqn:Ep; state_fields.
  - destruct (x =? 0) eqn:Ex0; state_fields.
    + exists true, n, 0%nat, 0%nat. split; [reflexivity|].
      intros _. apply Z.eqb_eq in Ex0. auto.
    + exists false, 0%nat, 0%nat, 0%nat. split; [reflexivity | discriminate].
  - apply orb_false_elim in Ep. destruct Ep as [-> ->].
    assert (w2 = false) as -> by (destruct w2; auto; discriminate (Hi eq_refl)).
    destruct sta; state_fields.
    + rewrite andb_false_r. exists true, s, e, c. split; [reflexivity|].
      intros _. destruct (Ho eq_refl eq_refl) as [Hsn Hbefore].
      repeat split; auto; lia.
    + rewrite (Hd eq_refl), andb_true_r.
      destruct (x =? 0) eqn:Ex0; state_fields.
      * exists true, n, e, 0%nat. split; [reflexivity|].
        intros _. apply Z.eqb_eq in Ex0. auto.
      * exists false, s, e, 0%nat. split; [reflexivity | discriminate].
Qed.

(** What the [if start:] block does at a spike. *)
Lemma started_block_spike (n : nat) (x : Z) (s e c : nat) (rg : list (nat * nat)) :
  (n < length data)%nat -> (s < n)%nat -> 0 < x ->
  started_block data cfg n x (mkState false false true false s e c rg) =
  if ((c + 1 =? 3)%nat || window_check_fails data cfg n)
  then if Z.of_nat (n - s) <? min_period_len cfg
       then mkState true false true (window_check_fails data cfg n) s n (c + 1) rg
       else mkState (window_check_fails data cfg n) true true (window_check_fails data cfg n)
                    s n (c + 1) (rg ++ [(s, n)])
  else mkState false false true false s e (c + 1) rg.
Proof.
  intros Hn Hsn Hx.
  rewrite started_block_eq. cbv zeta.
  rewrite (last_value_trigger_false data n Hn), orb_false_r.
  rewrite (slice_length_inside data s n) by lia.
  replace (x >? 0) with true by (symmetry; apply Z.gtb_lt; lia).
  replace (x =? 0) with false by (symmetry; apply Z.eqb_neq; lia).
  cbn [andb].
  destruct (window_check_fails data cfg n); rewrite ?orb_true_r, ?orb_false_r;
    [|destruct (c + 1 =? 3)%nat];
    destruct (Z.of_nat (n - s) <? min_period_len cfg); reflexivity.
Qed.

(** The upstream window holds the existing epochs [paxn + spike_tolerance ..
    paxn + min_window_len], the downstream window the epochs
    [max(0, paxn - min_window_len) .. paxn - 2]; a check fails when one of
    them has a positive count. *)
Lemma upstream_fails_iff (paxn : nat) :
  0 <= spike_tolerance cfg -> 0 <= min_window_len cfg ->
  ((0 <? Np.count_pos (upstream data cfg paxn))%nat = true <->
   exists j x, (paxn + Z.to_nat (spike_tolerance cfg) <= j)%nat /\
               (j <= paxn + Z.to_nat (min_window_len cfg))%nat /\
               nth_error data j = Some x /\ 0 < x).
Proof.
  intros Hst Hmw. rewrite count_pos_spec. unfold upstream. split.
  - intros (k & x & Hk & Hx).
    rewrite slice_nth_error in Hk by lia.
    destruct (_ <? _) eqn:E in Hk; [|discriminate].
    apply Z.ltb_lt in E.
    exists (Z.to_nat (Z.of_nat paxn + spike_tolerance cfg) + k)%nat, x.
    repeat split; try assumption; lia.
  - intros (j & x & Hlo & Hhi & Hj & Hx).
    exists (j - (paxn + Z.to_nat (spike_tolerance cfg)))%nat, x.
    split; [|exact Hx].
    rewrite slice_nth_error by lia.
    replace (_ <? _) with true by (symmetry; apply Z.ltb_lt; lia).
    rewrite <- Hj. f_equal. lia.
Qed.

Lemma downstream_fails_iff (paxn : nat) :
  (1 <= paxn)%nat ->
  ((0 <? Np.count_pos (downstream data cfg paxn))%nat = true <->
   exists j x, Z.max 0 (Z.of_nat paxn - min_window_len cfg) <= Z.of_nat j /\
               (j < paxn - 1)%nat /\
               nth_error data j = Some x /\ 0 < x).
Proof.
  intros Hp. rewrite count_pos_spec. unfold downstream.
  set (lo := if Z.of_nat paxn - min_window_len cfg >? 0
             then Z.of_nat paxn - min_window_len cfg else 0).
  assert (Hlo : lo = Z.max 0 (Z.of_nat paxn - min_window_len cfg)).
  { unfold lo. destruct (_ >? 0) eqn:E.
    - apply Z.gtb_lt in E. lia.
    - assert (~ 0 < Z.of_nat paxn - min_window_len cfg)
        by (intros H; apply Z.gtb_lt in H; congruence).
      lia. }
  rewrite <- Hlo. assert (0 <= lo) by lia. clearbody lo. split.
  - intros (k & x & Hk & Hx).
    rewrite slice_nth_error in Hk by lia.
    destruct (_ <? _) eqn:E in Hk; [|discriminate].
    apply Z.ltb_lt in E.
    exists (Z.to_nat lo + k)%nat, x.
    repeat split; try assumption; lia.
  - intros (j & x & Hj1 & Hj2 & Hj & Hx).
    exists (j - Z.to_nat lo)%nat, x.
    split; [|exact Hx].
    rewrite slice_nth_error by lia.
    replace (_ <? _) with true by (symmetry; apply Z.ltb_lt; lia).
    rewrite <- Hj. f_equal. lia.
Qed.

(** The iteration at a spike of an open period, from a state the scan
    reaches. *)
Lemma spike_iteration (paxn : nat) (x : Z) (st st' : state) :
  state_before data cfg paxn = Ok st ->
  nth_error data paxn = Some x ->
  0 < x ->
  period_open paxn x st = true ->
  loop_body data cfg st paxn = Ok st' ->
  exists s e c,
    (s < paxn)%nat /\
    st' =
    if ((c + 1 =? 3)%nat || window_check_fails data cfg paxn)
    then if Z.of_nat (paxn - s) <? min_period_len cfg
         then mkState true false true (window_check_fails data cfg paxn)
                      s paxn (c + 1) (ranges st)
         else mkState (window_check_fails data cfg paxn) true true
                      (window_check_fails data cfg paxn)
                      s paxn (c + 1) (ranges st ++ [(s, paxn)])
    else mkState false false true false s e (c + 1) (ranges st).
Proof.
  intros Hst Hx Hpos Hopen Hbody.
  assert (Hn : (paxn < length data)%nat)
    by (apply nth_error_Some; congruence).
  assert (Hinv := state_before_inv paxn st ltac:(lia) Hst).
  destruct (enter_iteration paxn x st Hinv)
    as (sta & s & e & c & Heq & Hfacts).
  unfold period_open in Hopen. rewrite Heq in Hopen. simpl in Hopen. subst sta.
  destruct (Hfacts eq_refl) as (Hsn & Hnew & _).
  assert (Hlt : (s < paxn)%nat).
  { destruct (Nat.eq_dec s paxn) as [E|E]; [|lia].
    destruct (Hnew E) as [Hx0 _]. lia. }
  unfold loop_body, Py.index in Hbody. rewrite Hx in Hbody. simpl in Hbody.
  rewrite Heq in Hbody. simpl in Hbody.
  rewrite started_block_spike in Hbody by assumption.
  injection Hbody as <-.
  exists s, e, c. split; [exact Hlt | reflexivity].
Qed.

(** With window parameters that are not negative, the window is marked
    invalid at a spike of an open period exactly when a count among the
    epochs [paxn + spike_tolerance .. paxn + min_window_len] or among the
    epochs [max(0, paxn - min_window_len) .. paxn - 2] is positive. *)
Lemma window_2_invalid_iff (paxn : nat) (x : Z) (st st' : state) :
  0 <= spike_tolerance cfg -> 0 <= min_window_len cfg ->
  state_before data cfg paxn = Ok st ->
  nth_error data paxn = Some x ->
  0 < x ->
  period_open paxn x st = true ->
  loop_body data cfg st paxn = Ok st' ->
  (window_2_invalid st' = true <->
   (exists j y, (paxn + Z.to_nat (spike_tolerance cfg) <= j)%nat /\
                (j <= paxn + Z.to_nat (min_window_len cfg))%nat /\
                nth_error data j = Some y /\ 0 < y)
   \/
   (exists j y, Z.max 0 (Z.of_nat paxn - min_window_len cfg) <= Z.of_nat j /\
                (j < paxn - 1)%nat /\
                nth_error data j = Some y /\ 0 < y)).
Proof.
  intros Htol Hwin Hst Hx Hpos Hopen Hbody.
  destruct (spike_iteration paxn x st st' Hst Hx Hpos Hopen Hbody)
    as (s & e & c & Hlt & ->).
  rewrite <- upstream_fails_iff by assumption.
  rewrite <- downstream_fails_iff by lia.
  rewrite <- orb_true_iff. fold (window_check_fails data cfg paxn).
  destruct (window_check_fails data cfg paxn); rewrite ?orb_true_r, ?orb_false_r;
    destruct (c + 1 =? 3)%nat;
    destruct (Z.of_nat (paxn - s) <? min_period_len cfg); simpl;
    split; auto.
Qed.

End Iteration.

(** * The close condition *)

(** C1: the end-of-sequence disjunct of the close condition compares the
    loop index with the length of [data - 1], which is the length of [data];
    it is false at every index of the loop, so the close condition is the
    three-spikes test or the invalid window, and the period is closed by
    these two only. *)
Theorem C1_last_value_trigger_never_fires
        (data : list Z) (cfg : config) (paxn : nat) (st : state) :
  (paxn < length data)%nat ->
  length (Np.sub_scalar data 1) = length data /\
  last_value_trigger data paxn = false /\
  end_trigger data paxn st
  = ((cnt_non_zero st =? 3)%nat || window_2_invalid st) /\
  close_period data cfg paxn st
  = if (cnt_non_zero st =? 3)%nat || window_2_invalid st
    then end_period data cfg paxn st
    else st.
Proof.
  intros Hn.
  assert (Hlast := last_value_trigger_false data paxn Hn).
  repeat split.
  - apply sub_scalar_length.
  - exact Hlast.
  - unfold end_trigger. rewrite Hlast. apply orb_false_r.
  - unfold close_period, end_trigger. rewrite Hlast, orb_false_r. reflexivity.
Qed.

Lemma C1_witness :
  length (Np.sub_scalar [0; 0] 1) = length [0; 0] /\
  last_value_trigger [0; 0] 1 = false /\
  end_trigger [0; 0] 1 init_state
  = ((cnt_non_zero init_state =? 3)%nat || window_2_invalid init_state) /\
  close_period [0; 0] default_config 1 init_state
  = if (cnt_non_zero init_state =? 3)%nat || window_2_invalid init_state
    then end_period [0; 0] default_config 1 init_state
    else init_state.
Proof.
  apply (C1_last_value_trigger_never_fires [0; 0] default_config 1 init_state).
  simpl. lia.
Defined.

(** * Invalid windows *)

(** C2, counterexample: at epoch 100 of [two_close_spikes] the upstream
    window holds the second spike, the check fails, and the period that
    started at epoch 0 is recorded as the range [(0, 100)]. *)
Lemma C2_invalid_window_records_long_period : ~ discards_on_invalid_window.
Proof.
  intros H.
  specialize (H two_close_spikes default_config 100%nat 50
                (mkState false false true false 0 0 0 [])
                (mkState true true true true 0 100 1 [(0%nat, 100%nat)])).
  simpl ranges in H.
  assert (E : [(0%nat, 100%nat)] = @nil (nat * nat)); [|discriminate E].
  apply H; vm_compute; reflexivity.
Qed.

(** C2, amended: a failed window check at a spike of an open period closes
    the period at that epoch and schedules the reset; the period is
    discarded when it is shorter than [min_period_len] and recorded as the
    range [(strt_nw, paxn)] otherwise. *)
Theorem C2_invalid_window_closes_period
        (data : list Z) (cfg : config) (paxn : nat) (x : Z) (st st' : state) :
  state_before data cfg paxn = Ok st ->
  nth_error data paxn = Some x ->
  0 < x ->
  period_open paxn x st = true ->
  window_check_fails data cfg paxn = true ->
  loop_body data cfg st paxn = Ok st' ->
  reset st' = true /\ end_nw st' = paxn /\ (strt_nw st' < paxn)%nat /\
  ((Z.of_nat (paxn - strt_nw st') < min_period_len cfg /\
    stopped st' = false /\ ranges st' = ranges st)
   \/
   (min_period_len cfg <= Z.of_nat (paxn - strt_nw st') /\
    stopped st' = true /\
    ranges st' = ranges st ++ [(strt_nw st', paxn)])).
Proof.
  intros Hst Hx Hpos Hopen Hfail Hbody.
  destruct (spike_iteration data cfg paxn x st st' Hst Hx Hpos Hopen Hbody)
    as (s & e & c & Hlt & ->).
  rewrite Hfail, orb_true_r.
  destruct (Z.of_nat (paxn - s) <? min_period_len cfg) eqn:Elen; simpl.
  - apply Z.ltb_lt in Elen. repeat split; auto.
  - apply Z.ltb_ge in Elen. repeat split; auto.
Qed.

Lemma C2_witness :
  let st' := mkState true true true true 0 100 1 [(0%nat, 100%nat)] in
  reset st' = true /\ end_nw st' = 100%nat /\ (strt_nw st' < 100)%nat /\
  ((Z.of_nat (100 - strt_nw st') < min_period_len default_config /\
    stopped st' = false /\ ranges st' = [])
   \/
   (min_period_len default_config <= Z.of_nat (100 - strt_nw st') /\
    stopped st' = true /\
    ranges st' = [] ++ [(strt_nw st', 100%nat)])).
Proof.
  apply (C2_invalid_window_closes_period
           two_close_spikes default_config 100 50
           (mkState false false true false 0 0 0 [])
           (mkState true true true true 0 100 1 [(0%nat, 100%nat)]));
    vm_compute; reflexivity.
Defined.

(** * A tolerated spike *)

(** C3: on [tolerated_spike] with the default parameters the period opened
    at epoch 0 is still open when the loop ends (the spike is tolerated and
    nothing closes the period at the last epoch), no range is recorded, and
    the returned vector is all ones. *)
Theorem C3_tolerated_spike_is_never_closed
        (calculate_vector_magnitude : list epoch -> bool -> bool -> list Z)
        (time : list Z) (print_output : bool) :
  length tolerated_spike = 201%nat /\
  find_non_wear_periods tolerated_spike (mkConfig 0 90 2 30)
  = Ok (mkState false false true false 0 0 0 []) /\
  choi_2011_calculate_non_wear_time
    calculate_vector_magnitude time print_output
    (on_axis1 tolerated_spike) (mkConfig 0 90 2 30) false
  = Ok (Np.ones 201, []).
Proof.
  repeat split; vm_compute; reflexivity.
Qed.

(** * The activity threshold *)

(** C4: the scan compares counts with the literal 0 and never reads
    [activity_threshold].  With a threshold of 5, a count of 5 does not open
    a period, a count of 3 inside an open period is counted as a spike, and
    a hundred epochs at the threshold followed by three spikes record
    nothing, where a hundred zeros followed by the same spikes record the
    range [(0, 100)]; the result of the scan is the one of threshold 0
    throughout. *)
Theorem C4_activity_threshold_is_not_read :
  loop_body [5] (mkConfig 5 90 2 30) init_state 0 = Ok init_state /\
  loop_body [0; 3] (mkConfig 5 90 2 30)
            (mkState false false true false 0 0 0 []) 1
  = Ok (mkState false false true false 0 0 1 []) /\
  find_non_wear_periods (repeat 5 100 ++ [50; 50; 50]) (mkConfig 5 90 2 30)
  = Ok init_state /\
  find_non_wear_periods (repeat 0 100 ++ [50; 50; 50]) (mkConfig 0 90 2 30)
  = Ok (mkState false false false false 0 0 0 [(0%nat, 100%nat)]) /\
  forall (data : list Z) (threshold period tolerance window : Z),
    find_non_wear_periods data (mkConfig threshold period tolerance window)
    = find_non_wear_periods data (mkConfig 0 period tolerance window).
Proof.
  split; [vm_compute; reflexivity|].
  split; [vm_compute; reflexivity|].
  split; [vm_compute; reflexivity|].
  split; [vm_compute; reflexivity|].
  intros data threshold period tolerance window.
  reflexivity.
Qed.

(** * The accepted ranges *)

Lemma sorted_disjoint_increasing (cfg : config) (n : nat) (l : list (nat * nat)) :
  Forall (range_ok cfg n) l ->
  StronglySorted before l ->
  StronglySorted disjoint_increasing l.
Proof.
  intros Hok Hs. induction Hs as [|a l Hs IH Ha].
  - constructor.
  - inversion Hok as [|? ? Hoka Hokl]; subst.
    constructor; [apply IH; exact Hokl|].
    destruct Hoka as (Hlt & _ & _).
    revert Ha. apply Forall_impl. intros r Hr.
    unfold before in Hr. unfold disjoint_increasing. lia.
Qed.

(** C5: the scan returns, and in the list of ranges it has recorded every
    range has [end > start] and [end - start >= min_period_len], and every
    range starts strictly before, and ends no later than the start of, every
    range recorded after it. *)
Theorem C5_ranges_long_disjoint_increasing (data : list Z) (cfg : config) :
  exists st,
    find_non_wear_periods data cfg = Ok st /\
    Forall (long_enough cfg) (ranges st) /\
    StronglySorted disjoint_increasing (ranges st).
Proof.
  destruct (find_non_wear_periods_inv data cfg) as (st & Hrun & Hinv).
  exists st. split; [exact Hrun|].
  destruct Hinv as [Hr Hs _ _ _]. split.
  - revert Hr. apply Forall_impl. intros r (H1 & H2 & _). split; assumption.
  - eapply sorted_disjoint_increasing; eassumption.
Qed.

(** * The validation windows *)

(** C6: with a threshold of 5, at the spike of epoch 40 of
    [low_count_in_window] the windows are the epochs 42..70 and 10..38, no
    count in them exceeds the threshold, and the window is marked invalid
    all the same: the checks compare with the literal 0. *)
Theorem C6_windows_compare_with_zero :
  let cfg := mkConfig 5 90 2 30 in
  upstream low_count_in_window cfg 40 = [0; 3] ++ repeat 0 27 /\
  downstream low_count_in_window cfg 40 = repeat 0 29 /\
  forallb (fun y => y <=? activity_threshold cfg)
          (upstream low_count_in_window cfg 40
           ++ downstream low_count_in_window cfg 40) = true /\
  state_before low_count_in_window cfg 40
  = Ok (mkState false false true false 0 0 0 []) /\
  loop_body low_count_in_window cfg (mkState false false true false 0 0 0 []) 40
  = Ok (mkState true false true true 0 40 1 []).
Proof.
  repeat split; vm_compute; reflexivity.
Qed.

(** * From ranges to the returned vector *)

Lemma assign_from_length (j lo hi : nat) (x : Z) (v : list Z) :
  length (Np.assign_from j lo hi x v) = length v.
Proof.
  revert j. induction v as [|y v IH]; intros j; simpl; [reflexivity|].
  rewrite IH. reflexivity.
Qed.

Lemma apply_ranges_length (rows : list (nat * nat)) (v : list Z) :
  length (apply_ranges rows v) = length v.
Proof.
  revert v. induction rows as [|row rows IH]; intros v; simpl; [reflexivity|].
  unfold apply_ranges in IH. rewrite IH.
  unfold Np.slice_assign. apply assign_from_length.
Qed.

Section FinalLoop.

Variable time : list Z.
Variable print_output : bool.
Variable data : list Z.

(** Whatever is logged, a final loop that returns has applied the ranges. *)
Lemma write_ranges_mask (rows : list (nat * nat)) :
  forall v log v' log',
    write_ranges time print_output data rows v log = Ok (v', log') ->
    v' = apply_ranges rows v.
Proof.
  induction rows as [|row rows IH]; intros v log v' log' H; simpl in H.
  - injection H as <- _. reflexivity.
  - destruct (log_row time print_output data row) as [msgs|];
      [|discriminate H].
    simpl in H. apply IH in H. exact H.
Qed.

(** The timestamps of every row exist: the final loop returns. *)
Lemma write_ranges_returns (rows : list (nat * nat)) :
  print_output = false \/
  Forall (fun r => (fst r < length time)%nat /\ (snd r < length time)%nat) rows ->
  forall v log, exists log',
    write_ranges time print_output data rows v log
    = Ok (apply_ranges rows v, log').
Proof.
  intros Hsafe.
  induction rows as [|row rows IH]; intros v log; simpl.
  - exists log. reflexivity.
  - assert (Hrow : exists msgs, log_row time print_output data row = Ok msgs).
    { unfold log_row. destruct print_output eqn:Ep; [|eexists; reflexivity].
      destruct Hsafe as [Hoff | Hall]; [discriminate Hoff|].
      inversion Hall as [|? ? [H0 H1] _]; subst.
      destruct (index_in_range time (fst row) H0) as (t0 & -> & _).
      destruct (index_in_range time (snd row) H1) as (t1 & -> & _).
      simpl. eexists. reflexivity. }
    destruct Hrow as (msgs & ->). simpl.
    apply IH.
    destruct Hsafe as [Hoff | Hall]; [left; exact Hoff | right].
    inversion Hall; assumption.
Qed.

End FinalLoop.

(** Every recorded range ends at an epoch of the scanned sequence. *)
Lemma ranges_inside (data : list Z) (cfg : config) :
  exists st,
    find_non_wear_periods data cfg = Ok st /\
    Forall (fun r => (fst r < length data)%nat /\ (snd r < length data)%nat)
           (ranges st).
Proof.
  destruct (find_non_wear_periods_inv data cfg) as (st & Hrun & Hinv).
  exists st. split; [exact Hrun|].
  destruct Hinv as [Hr _ _ _ _].
  revert Hr. apply Forall_impl. intros r (H1 & _ & H3). lia.
Qed.

(** A sequence shorter than [min_period_len] yields no range. *)
Lemma short_data_no_ranges (data : list Z) (cfg : config) :
  Z.of_nat (length data) < min_period_len cfg ->
  exists st, find_non_wear_periods data cfg = Ok st /\ ranges st = [].
Proof.
  intros Hshort.
  destruct (find_non_wear_periods_inv data cfg) as (st & Hrun & Hinv).
  exists st. split; [exact Hrun|].
  destruct Hinv as [Hr _ _ _ _].
  destruct (ranges st) as [|r rest]; [reflexivity|].
  inversion Hr as [|? ? (H1 & H2 & H3) _]; subst. lia.
Qed.

Lemma axis1_length (data : list epoch) : length (axis1 data) = length data.
Proof. unfold axis1. apply length_map. Qed.

(** * Short input *)

(** C7: on an input shorter than [min_period_len] the function logs the
    diagnostic, runs the scan and returns: the vector is all ones and the
    diagnostic is the only log entry. *)
Theorem C7_short_input_all_worn
        (calculate_vector_magnitude : list epoch -> bool -> bool -> list Z)
        (time : list Z) (print_output : bool)
        (data : list epoch) (cfg : config) (use_vector_magnitude : bool) :
  (use_vector_magnitude = true ->
   length (calculate_vector_magnitude data false false) = length data) ->
  Z.of_nat (length data) < min_period_len cfg ->
  choi_2011_calculate_non_wear_time
    calculate_vector_magnitude time print_output data cfg use_vector_magnitude
  = Ok (Np.ones (length data),
        [LogInsufficient (length data) (min_period_len cfg)]).
Proof.
  intros Hvm Hshort. unfold choi_2011_calculate_non_wear_time.
  replace (Z.of_nat (length data) <? min_period_len cfg) with true
    by (symmetry; apply Z.ltb_lt; exact Hshort).
  set (data1 := if use_vector_magnitude
                then calculate_vector_magnitude data false false
                else axis1 data).
  assert (Hlen : length data1 = length data).
  { unfold data1. destruct use_vector_magnitude;
      [apply Hvm; reflexivity | apply axis1_length]. }
  destruct (short_data_no_ranges data1 cfg ltac:(lia)) as (st & -> & Hnil).
  simpl. rewrite Hnil. reflexivity.
Qed.

Lemma C7_witness :
  choi_2011_calculate_non_wear_time
    floor_vector_magnitude [] true
    (on_axis1 (repeat 0 50)) default_config true
  = Ok (Np.ones (length (on_axis1 (repeat 0 50))),
        [LogInsufficient (length (on_axis1 (repeat 0 50)))
                         (min_period_len default_config)]).
Proof.
  apply (C7_short_input_all_worn
           floor_vector_magnitude [] true
           (on_axis1 (repeat 0 50)) default_config true).
  - intros _. reflexivity.
  - vm_compute. reflexivity.
Defined.

(** * The whole function returns *)

(** The function returns whenever logging is off or the timestamps cover
    the scanned sequence, and the vector it returns is the all-ones vector
    with the recorded ranges zeroed. *)
Lemma choi_returns
      (calculate_vector_magnitude : list epoch -> bool -> bool -> list Z)
      (time : list Z) (print_output : bool)
      (data : list epoch) (cfg : config) (use_vector_magnitude : bool) :
  print_output = false \/
  (length time = length data /\
   (use_vector_magnitude = true ->
    length (calculate_vector_magnitude data false false) = length data)) ->
  exists st log,
    find_non_wear_periods
      (if use_vector_magnitude
       then calculate_vector_magnitude data false false
       else axis1 data) cfg = Ok st /\
    choi_2011_calculate_non_wear_time
      calculate_vector_magnitude time print_output data cfg use_vector_magnitude
    = Ok (apply_ranges (ranges st) (Np.ones (length data)), log).
Proof.
  intros Hsafe. unfold choi_2011_calculate_non_wear_time.
  set (data1 := if use_vector_magnitude
                then calculate_vector_magnitude data false false
                else axis1 data).
  destruct (ranges_inside data1 cfg) as (st & Hrun & Hin).
  rewrite Hrun. cbn [bind].
  assert (Hrows : print_output = false \/
                  Forall (fun r => (fst r < length time)%nat /\
                                   (snd r < length time)%nat) (ranges st)).
  { destruct Hsafe as [Hoff | [Htime Hvm]]; [left; exact Hoff | right].
    assert (Hlen : length data1 = length data).
    { unfold data1. destruct use_vector_magnitude;
        [apply Hvm; reflexivity | apply axis1_length]. }
    rewrite Htime, <- Hlen. exact Hin. }
  match goal with
  | |- context [write_ranges _ _ _ _ ?ones ?log0] =>
      destruct (write_ranges_returns time print_output data1 (ranges st)
                                     Hrows ones log0) as (log' & Hw)
  end.
  exists st, log'. split; [reflexivity | exact Hw].
Qed.

(** * Malformed input *)

(** C8, counterexample: two epochs with counts -1 and 0 and no timestamp at
    all are scanned, and the all-ones vector is returned. *)
Lemma C8_malformed_input_is_scanned : ~ validates_at_boundary.
Proof.
  intros H.
  destruct (H floor_vector_magnitude [] false
              (on_axis1 [-1; 0]) default_config false) as [Hbad _].
  assert (Hm : malformed (on_axis1 [-1; 0]) []).
  { left. simpl. discriminate. }
  specialize (Hbad Hm). vm_compute in Hbad. discriminate Hbad.
Qed.

(** C8, amended: the function does not validate its input.  Whatever the
    counts, negative ones included, the scan runs to its end; the function
    returns a vector of the length of the input when [print_output] is off,
    whatever the timestamps, and when the timestamps are aligned with the
    counts. *)
Theorem C8_returns_without_validation
        (calculate_vector_magnitude : list epoch -> bool -> bool -> list Z)
        (time : list Z) (print_output : bool)
        (data : list epoch) (cfg : config) (use_vector_magnitude : bool) :
  (exists st,
     find_non_wear_periods
       (if use_vector_magnitude
        then calculate_vector_magnitude data false false
        else axis1 data) cfg = Ok st) /\
  (print_output = false \/
   (length time = length data /\
    (use_vector_magnitude = true ->
     length (calculate_vector_magnitude data false false) = length data)) ->
   exists v log,
     choi_2011_calculate_non_wear_time
       calculate_vector_magnitude time print_output data cfg
       use_vector_magnitude
     = Ok (v, log) /\
     length v = length data).
Proof.
  split.
  - destruct (find_non_wear_periods_inv
                (if use_vector_magnitude
                 then calculate_vector_magnitude data false false
                 else axis1 data) cfg) as (st & Hrun & _).
    exists st. exact Hrun.
  - intros Hsafe.
    destruct (choi_returns calculate_vector_magnitude time print_output
                           data cfg use_vector_magnitude Hsafe)
      as (st & log & _ & Hr).
    eexists. exists log. split; [exact Hr|].
    rewrite apply_ranges_length. unfold Np.ones. apply repeat_length.
Qed.

Lemma C8_witness :
  exists v log,
    choi_2011_calculate_non_wear_time
      floor_vector_magnitude [] false
      (on_axis1 [-1; 0]) default_config false
    = Ok (v, log) /\
    length v = length (on_axis1 [-1; 0]).
Proof.
  destruct (C8_returns_without_validation
              floor_vector_magnitude [] false
              (on_axis1 [-1; 0]) default_config false) as [_ Hret].
  apply Hret. left. reflexivity.
Defined.

(** * Bounds of the window reads *)

Lemma slice_clamped {A : Type} (l : list A) (lo hi : Z) :
  0 <= lo -> 0 <= hi -> Py.slice l lo hi = clamped_slice l lo hi.
Proof.
  intros Hlo Hhi. unfold Py.slice, clamped_slice. cbv zeta.
  rewrite !norm_nonneg by lia. rewrite Z.max_l by lia.
  destruct (Z_le_gt_dec lo (Z.of_nat (length l))) as [Hin | Hout].
  - rewrite (Z.min_l lo) by lia. reflexivity.
  - rewrite (Z.min_r lo) by lia.
    rewrite (skipn_all2 l (n := Z.to_nat (Z.of_nat (length l)))) by lia.
    rewrite (skipn_all2 l (n := Z.to_nat lo)) by lia.
    rewrite !firstn_nil. reflexivity.
Qed.

(** C9, counterexample: with [spike_tolerance = -1] and
    [min_window_len = -3] the upstream slice of the spike at epoch 1 of
    [[0; 5; 0]] is [data[0:-1]]: its negative bound wraps around to the end
    of the sequence and the window holds the epochs 0 and 1, the spike
    itself included, where the existing epochs of [0 .. -2] are none. *)
Lemma C9_negative_parameters_wrap_around : ~ window_reads_bounds_checked.
Proof.
  intros H.
  destruct (H [0; 5; 0] wrapping_config 1%nat 5
              (mkState false false true false 0 0 0 [])) as [Hup _];
    try (vm_compute; reflexivity).
  vm_compute in Hup. discriminate Hup.
Qed.

(** C9, amended: the scan never raises, for every sequence and every
    configuration.  With [spike_tolerance] and [min_window_len] not
    negative the upstream window is the existing epochs of
    [paxn + spike_tolerance .. paxn + min_window_len], and from epoch 1 on
    the downstream window is the existing epochs of
    [max(0, paxn - min_window_len) .. paxn - 2]; what lies outside the
    sequence is empty, and a check fails exactly on a positive count of an
    existing epoch of these ranges. *)
Theorem C9_windows_clamped_for_nonnegative_parameters
        (data : list Z) (cfg : config) (paxn : nat) :
  (exists st, find_non_wear_periods data cfg = Ok st) /\
  (0 <= spike_tolerance cfg -> 0 <= min_window_len cfg ->
   upstream data cfg paxn
   = clamped_slice data (Z.of_nat paxn + spike_tolerance cfg)
                        (Z.of_nat paxn + min_window_len cfg + 1)) /\
  ((1 <= paxn)%nat ->
   downstream data cfg paxn
   = clamped_slice data (Z.max 0 (Z.of_nat paxn - min_window_len cfg))
                        (Z.of_nat paxn - 1)) /\
  (0 <= spike_tolerance cfg -> 0 <= min_window_len cfg -> (1 <= paxn)%nat ->
   (window_check_fails data cfg paxn = true <->
    (exists j x, (paxn + Z.to_nat (spike_tolerance cfg) <= j)%nat /\
                 (j <= paxn + Z.to_nat (min_window_len cfg))%nat /\
                 nth_error data j = Some x /\ 0 < x)
    \/
    (exists j x, Z.max 0 (Z.of_nat paxn - min_window_len cfg) <= Z.of_nat j /\
                 (j < paxn - 1)%nat /\
                 nth_error data j = Some x /\ 0 < x))).
Proof.
  split; [|split; [|split]].
  - destruct (find_non_wear_periods_inv data cfg) as (st & Hrun & _).
    exists st. exact Hrun.
  - intros Htol Hwin. unfold upstream. apply slice_clamped; lia.
  - intros Hp. unfold downstream.
    replace (if Z.of_nat paxn - min_window_len cfg >? 0
             then Z.of_nat paxn - min_window_len cfg else 0)
      with (Z.max 0 (Z.of_nat paxn - min_window_len cfg)).
    + apply slice_clamped; lia.
    + destruct (_ >? 0) eqn:E.
      * apply Z.gtb_lt in E. lia.
      * assert (~ 0 < Z.of_nat paxn - min_window_len cfg)
          by (intros H; apply Z.gtb_lt in H; congruence).
        lia.
  - intros Htol Hwin Hp. unfold window_check_fails.
    rewrite orb_true_iff.
    rewrite (upstream_fails_iff data cfg paxn Htol Hwin).
    rewrite (downstream_fails_iff data cfg paxn Hp).
    reflexivity.
Qed.

Lemma C9_witness :
  0 <= spike_tolerance default_config /\
  0 <= min_window_len default_config /\
  (1 <= 1)%nat /\
  (exists st, find_non_wear_periods spike_near_start default_config = Ok st) /\
  upstream spike_near_start default_config 1
  = clamped_slice spike_near_start
                  (Z.of_nat 1 + spike_tolerance default_config)
                  (Z.of_nat 1 + min_window_len default_config + 1) /\
  downstream spike_near_start default_config 1
  = clamped_slice spike_near_start
                  (Z.max 0 (Z.of_nat 1 - min_window_len default_config))
                  (Z.of_nat 1 - 1) /\
  (window_check_fails spike_near_start default_config 1 = true <->
   (exists j x, (1 + Z.to_nat (spike_tolerance default_config) <= j)%nat /\
                (j <= 1 + Z.to_nat (min_window_len default_config))%nat /\
                nth_error spike_near_start j = Some x /\ 0 < x)
   \/
   (exists j x, Z.max 0 (Z.of_nat 1 - min_window_len default_config)
                <= Z.of_nat j /\
                (j < 1 - 1)%nat /\
                nth_error spike_near_start j = Some x /\ 0 < x)).
Proof.
  assert (Htol : 0 <= spike_tolerance default_config) by (simpl; lia).
  assert (Hwin : 0 <= min_window_len default_config) by (simpl; lia).
  assert (Hp : (1 <= 1)%nat) by lia.
  destruct (C9_windows_clamped_for_nonnegative_parameters
              spike_near_start default_config 1)
    as (Hrun & Hup & Hdown & Hiff).
  exact (conj Htol
          (conj Hwin
             (conj Hp
                (conj Hrun
                   (conj (Hup Htol Hwin)
                      (conj (Hdown Hp) (Hiff Htol Hwin Hp))))))).
Defined.

(** * Timestamps and logging *)

(** A call that returns has zeroed the recorded ranges in the all-ones
    vector, whatever it has logged. *)
Lemma choi_mask
      (calculate_vector_magnitude : list epoch -> bool -> bool -> list Z)
      (time : list Z) (print_output : bool)
      (data : list epoch) (cfg : config) (use_vector_magnitude : bool)
      (m : list Z) :
  mask_of (choi_2011_calculate_non_wear_time
             calculate_vector_magnitude time print_output
             data cfg use_vector_magnitude) = Some m ->
  exists st,
    find_non_wear_periods
      (if use_vector_magnitude
       then calculate_vector_magnitude data false false
       else axis1 data) cfg = Ok st /\
    m = apply_ranges (ranges st) (Np.ones (length data)).
Proof.
  unfold choi_2011_calculate_non_wear_time.
  destruct (find_non_wear_periods _ cfg) as [st|]; simpl; [|discriminate].
  intros H. exists st. split; [reflexivity|].
  destruct (write_ranges _ _ _ _ _ _) as [[v log]|] eqn:E;
    simpl in H; [|discriminate H].
  injection H as <-.
  eapply write_ranges_mask. exact E.
Qed.

Lemma index_out_of_range {A : Type} (l : list A) (i : nat) :
  (length l <= i)%nat -> Py.index l i = IndexError.
Proof.
  intros H. unfold Py.index.
  replace (nth_error l i) with (@None A)
    by (symmetry; apply nth_error_None; exact H).
  reflexivity.
Qed.

(** With [print_output] on, a range whose end has no timestamp makes the
    final loop raise. *)
Lemma write_ranges_raises (time : list Z) (data : list Z)
      (rows : list (nat * nat)) :
  lookup_fails time rows = true ->
  forall v log, write_ranges time true data rows v log = IndexError.
Proof.
  unfold lookup_fails.
  induction rows as [|row rows IH]; intros Hex v log; [discriminate Hex|].
  cbn [existsb] in Hex. cbn [write_ranges]. unfold log_row.
  destruct (Py.index time (fst row)) as [t0|]; [|reflexivity].
  cbn [bind].
  destruct (length time <=? snd row)%nat eqn:Erow.
  - apply Nat.leb_le in Erow.
    rewrite (index_out_of_range time (snd row) Erow). reflexivity.
  - destruct (Py.index time (snd row)) as [t1|]; [|reflexivity].
    cbn [bind]. cbn [orb] in Hex. apply IH. exact Hex.
Qed.

(** C10, counterexample: on [two_close_spikes] the call with
    [print_output] on and no timestamps raises at [time[row[0]]] and
    returns no vector, where the call with [print_output] off returns
    one. *)
Lemma C10_logging_without_timestamps_raises : ~ mask_ignores_time_and_logging.
Proof.
  intros H.
  specialize (H floor_vector_magnitude (on_axis1 two_close_spikes)
                default_config false [] [] true false).
  vm_compute in H. discriminate H.
Qed.

(** C10, amended: the recorded ranges depend on the counts and the
    configuration only.  A call returns the all-ones vector with these
    ranges zeroed, unless [print_output] is on and the timestamps have no
    entry for the end of a recorded range: then the lookup raises and no
    vector is returned.  So two calls that return give the same vector,
    whatever their timestamps and [print_output], and a call with
    timestamps aligned with the data returns the vector of the call that
    logs nothing. *)
Theorem C10_mask_is_decided_by_the_scan
        (calculate_vector_magnitude : list epoch -> bool -> bool -> list Z)
        (data : list epoch) (cfg : config) (use_vector_magnitude : bool)
        (time1 time2 : list Z) (print_output1 print_output2 : bool) :
  (exists st,
     find_non_wear_periods
       (if use_vector_magnitude
        then calculate_vector_magnitude data false false
        else axis1 data) cfg = Ok st /\
     mask_of (choi_2011_calculate_non_wear_time
                calculate_vector_magnitude time1 print_output1
                data cfg use_vector_magnitude)
     = if print_output1 && lookup_fails time1 (ranges st)
       then None
       else Some (apply_ranges (ranges st) (Np.ones (length data)))) /\
  (forall m1 m2,
     mask_of (choi_2011_calculate_non_wear_time
                calculate_vector_magnitude time1 print_output1
                data cfg use_vector_magnitude) = Some m1 ->
     mask_of (choi_2011_calculate_non_wear_time
                calculate_vector_magnitude time2 print_output2
                data cfg use_vector_magnitude) = Some m2 ->
     m1 = m2) /\
  (length time1 = length data ->
   (use_vector_magnitude = true ->
    length (calculate_vector_magnitude data false false) = length data) ->
   exists m,
     mask_of (choi_2011_calculate_non_wear_time
                calculate_vector_magnitude time1 print_output1
                data cfg use_vector_magnitude) = Some m /\
     mask_of (choi_2011_calculate_non_wear_time
                calculate_vector_magnitude [] false
                data cfg use_vector_magnitude) = Some m).
Proof.
  split; [|split].
  - set (counts := if use_vector_magnitude
                   then calculate_vector_magnitude data false false
                   else axis1 data).
    destruct (find_non_wear_periods_inv counts cfg) as (st & Hrun & Hinv).
    exists st. split; [exact Hrun|].
    unfold choi_2011_calculate_non_wear_time. fold counts.
    rewrite Hrun. cbn [bind].
    destruct print_output1; cbn [andb].
    + destruct (lookup_fails time1 (ranges st)) eqn:Efail.
      * rewrite write_ranges_raises by exact Efail. reflexivity.
      * match goal with
        | |- context [write_ranges _ _ _ _ ?ones ?log0] =>
            destruct (write_ranges_returns time1 true counts (ranges st))
              with (v := ones) (log := log0) as (log' & Hw)
        end.
        { right. destruct Hinv as [Hr _ _ _ _].
          apply Forall_forall. intros r Hin.
          rewrite Forall_forall in Hr. destruct (Hr r Hin) as (Hlt & _ & _).
          assert (Hr0 : (length time1 <=? snd r)%nat = false).
          { destruct (length time1 <=? snd r)%nat eqn:E; [|reflexivity].
            assert (Htrue : lookup_fails time1 (ranges st) = true)
              by (apply existsb_exists; exists r; split; assumption).
            congruence. }
          apply Nat.leb_gt in Hr0. lia. }
        rewrite Hw. reflexivity.
    + match goal with
      | |- context [write_ranges _ _ _ _ ?ones ?log0] =>
          destruct (write_ranges_returns time1 false counts (ranges st))
            with (v := ones) (log := log0) as (log' & Hw)
      end.
      { left. reflexivity. }
      rewrite Hw. reflexivity.
  - intros m1 m2 H1 H2.
    apply choi_mask in H1. apply choi_mask in H2.
    destruct H1 as (st1 & Hs1 & ->). destruct H2 as (st2 & Hs2 & ->).
    rewrite Hs1 in Hs2. injection Hs2 as <-. reflexivity.
  - intros Htime Hvm.
    destruct (choi_returns calculate_vector_magnitude time1 print_output1
                           data cfg use_vector_magnitude)
      as (st1 & log1 & Hs1 & Hr1); [right; split; assumption|].
    destruct (choi_returns calculate_vector_magnitude [] false
                           data cfg use_vector_magnitude)
      as (st2 & log2 & Hs2 & Hr2); [left; reflexivity|].
    rewrite Hs1 in Hs2. injection Hs2 as <-.
    eexists. rewrite Hr1, Hr2. split; reflexivity.
Qed.

Lemma C10_witness :
  let data := on_axis1 two_close_spikes in
  let m := repeat 0 100 ++ [1; 1; 1] in
  length (repeat 0 103) = length data /\
  length (floor_vector_magnitude data false false) = length data /\
  mask_of (choi_2011_calculate_non_wear_time
             floor_vector_magnitude (repeat 0 103) true
             data default_config true) = Some m /\
  mask_of (choi_2011_calculate_non_wear_time
             floor_vector_magnitude [] false
             data default_config true) = Some m /\
  m = m /\
  exists m',
    mask_of (choi_2011_calculate_non_wear_time
               floor_vector_magnitude (repeat 0 103) true
               data default_config true) = Some m' /\
    mask_of (choi_2011_calculate_non_wear_time
               floor_vector_magnitude [] false
               data default_config true) = Some m'.
Proof.
  intros data m.
  assert (Htime : length (repeat 0 103) = length data) by reflexivity.
  assert (Hvm : length (floor_vector_magnitude data false false) = length data)
    by reflexivity.
  assert (H1 : mask_of (choi_2011_calculate_non_wear_time
                          floor_vector_magnitude (repeat 0 103) true
                          data default_config true) = Some m)
    by (vm_compute; reflexivity).
  assert (H2 : mask_of (choi_2011_calculate_non_wear_time
                          floor_vector_magnitude [] false
                          data default_config true) = Some m)
    by (vm_compute; reflexivity).
  destruct (C10_mask_is_decided_by_the_scan
              floor_vector_magnitude data default_config true
              (repeat 0 103) [] true false) as (_ & Hsame & Hruns).
  exact (conj Htime
          (conj Hvm
             (conj H1
                (conj H2
                   (conj (Hsame m m H1 H2)
                         (Hruns Htime (fun _ => Hvm))))))).
Defined.

(** * Where the recorded ranges start and end *)

Section RangeEnds.

Variable data : list Z.
Variable cfg : config.

Lemma started_block_ends (n : nat) (x : Z) (s e c : nat) (rg : list (nat * nat)) :
  (n < length data)%nat ->
  nth_error data n = Some x ->
  nth_error data s = Some 0 ->
  (c <= 2)%nat ->
  Forall (zero_to_spike data) rg ->
  ends_inv data
    (started_block data cfg n x (mkState false false true false s e c rg)).
Proof.
  intros Hn Hx Hs Hc Hrg.
  rewrite started_block_eq. cbv zeta.
  rewrite (last_value_trigger_false data n Hn), orb_false_r.
  destruct (x =? 0) eqn:Ex0; [|destruct (x >? 0) eqn:Exp]; cbn [andb].
  - (* a zero count *)
    replace ((x >? 0) && window_check_fails data cfg n) with false
      by (apply Z.eqb_eq in Ex0; subst x; reflexivity).
    cbn [Nat.eqb orb].
    constructor; state_fields; auto;
      try (intros _ _; split; [exact Hs | lia]).
  - (* a spike *)
    apply Z.gtb_lt in Exp.
    destruct ((c + 1 =? 3)%nat || window_check_fails data cfg n) eqn:Etrig;
      [destruct (_ <? min_period_len cfg)|];
      constructor; state_fields; auto;
      try (intros _ Hpending; rewrite ?orb_true_r in Hpending;
           discriminate Hpending).
    + apply Forall_app. split; [exact Hrg|].
      constructor; [|constructor]. split; cbn [fst snd]; [exact Hs|].
      exists x. split; [exact Hx | lia].
    + apply orb_false_elim in Etrig. destruct Etrig as [Ec _].
      apply Nat.eqb_neq in Ec. intros _ _. split; [exact Hs | lia].
  - (* a negative count *)
    replace (c =? 3)%nat with false by (symmetry; apply Nat.eqb_neq; lia).
    cbn [orb].
    constructor; state_fields; auto;
      try (intros _ _; split; [exact Hs | exact Hc]).
Qed.

Lemma loop_body_ends (n : nat) (st st' : state) :
  (n < length data)%nat ->
  scan_inv cfg n st -> ends_inv data st ->
  loop_body data cfg st n = Ok st' ->
  ends_inv data st'.
Proof.
  intros Hn [Hr Hs Hi Hd Ho] [Hz Hop] Hbody.
  destruct (index_in_range data n Hn) as (x & Hx & Hnth).
  unfold loop_body in Hbody. rewrite Hx in Hbody. cbn [bind] in Hbody.
  injection Hbody as <-.
  destruct st as [rs sp sta w2 s e c rg]. state_fields_in_all.
  unfold reset_counters. state_fields.
  destruct (rs || sp) eqn:Ep.
  - unfold open_period. state_fields.
    destruct (x =? 0) eqn:Ex0; state_fields.
    + apply Z.eqb_eq in Ex0. subst x.
      apply started_block_ends; auto; lia.
    + constructor; state_fields; auto; discriminate.
  - apply orb_false_elim in Ep. destruct Ep as [-> ->].
    assert (w2 = false) as -> by (destruct w2; auto; discriminate (Hi eq_refl)).
    unfold open_period. state_fields.
    destruct sta; state_fields.
    + destruct (Hop eq_refl eq_refl) as [Hs0 Hc].
      rewrite andb_false_r.
      apply started_block_ends; auto.
    + rewrite (Hd eq_refl), andb_true_r.
      destruct (x =? 0) eqn:Ex0; state_fields.
      * apply Z.eqb_eq in Ex0. subst x.
        apply started_block_ends; auto; lia.
      * constructor; state_fields; auto; discriminate.
Qed.

Lemma find_non_wear_periods_ends :
  exists st, find_non_wear_periods data cfg = Ok st /\
             scan_inv cfg (length data) st /\ ends_inv data st.
Proof.
  unfold find_non_wear_periods.
  destruct (for_each_range_invariant (loop_body data cfg)
              (fun n st => scan_inv cfg n st /\ ends_inv data st)
              (length data)) with (st := init_state)
    as (st & Hrun & Hinv & Hends).
  - intros n st Hn [Hinv Hends].
    destruct (loop_body_inv data cfg n st Hn Hinv) as (st' & Hbody & Hinv').
    exists st'. split; [exact Hbody|]. split; [exact Hinv'|].
    eapply loop_body_ends; eassumption.
  - split; [apply scan_inv_init|].
    constructor; cbn; [constructor | discriminate].
  - exists st. auto.
Qed.

End RangeEnds.

(** X1: every range the scan records starts at an epoch whose count is 0
    and ends at an epoch whose count is positive: a period opens on a zero
    only, and only a spike closes it. *)
Theorem X1_ranges_start_at_zero_end_at_spike (data : list Z) (cfg : config) :
  exists st,
    find_non_wear_periods data cfg = Ok st /\
    Forall (zero_to_spike data) (ranges st).
Proof.
  destruct (find_non_wear_periods_ends data cfg) as (st & Hrun & _ & [Hz _]).
  exists st. split; assumption.
Qed.

(** X2: an input without any zero count, and an input without any positive
    count (all zeros, for one), yield no range at all: the function returns
    the all-ones vector and logs the length diagnostic only. *)
Theorem X2_no_zero_or_no_spike_all_worn
        (calculate_vector_magnitude : list epoch -> bool -> bool -> list Z)
        (time : list Z) (print_output : bool)
        (data : list epoch) (cfg : config) (use_vector_magnitude : bool) :
  let counts := if use_vector_magnitude
                then calculate_vector_magnitude data false false
                else axis1 data in
  Forall (fun x => x <> 0) counts \/ Forall (fun x => x <= 0) counts ->
  choi_2011_calculate_non_wear_time
    calculate_vector_magnitude time print_output data cfg use_vector_magnitude
  = Ok (Np.ones (length data), length_diagnostic (length data) cfg).
Proof.
  intros counts Hcounts. unfold choi_2011_calculate_non_wear_time.
  fold counts.
  destruct (find_non_wear_periods_ends counts cfg)
    as (st & Hrun & _ & [Hz _]).
  rewrite Hrun. cbn [bind].
  assert (Hnil : ranges st = []).
  { destruct (ranges st) as [|r rest]; [reflexivity|].
    inversion Hz as [|? ? [Hzero (x & Hx & Hpos)] _]; subst.
    apply nth_error_In in Hzero. apply nth_error_In in Hx.
    destruct Hcounts as [Hnz | Hnp].
    - rewrite Forall_forall in Hnz. destruct (Hnz 0 Hzero). reflexivity.
    - rewrite Forall_forall in Hnp. specialize (Hnp x Hx). lia. }
  rewrite Hnil. reflexivity.
Qed.

Lemma X2_witness :
  choi_2011_calculate_non_wear_time
    floor_vector_magnitude [] true
    (on_axis1 [0; 0; 0]) (mkConfig 0 2 2 30) false
  = Ok (Np.ones (length (on_axis1 [0; 0; 0])),
        length_diagnostic (length (on_axis1 [0; 0; 0])) (mkConfig 0 2 2 30)).
Proof.
  apply (X2_no_zero_or_no_spike_all_worn
           floor_vector_magnitude [] true
           (on_axis1 [0; 0; 0]) (mkConfig 0 2 2 30) false).
  right. simpl. repeat (apply Forall_cons; [lia|]). apply Forall_nil.
Defined.

(** * The returned vector *)

Lemma assign_from_nth (j lo hi : nat) (x : Z) (v : list Z) (k : nat) :
  nth_error (Np.assign_from j lo hi x v) k =
  option_map (fun y => if (lo <=? j + k)%nat && (j + k <? hi)%nat
                       then x else y)
             (nth_error v k).
Proof.
  revert j k. induction v as [|y v IH]; intros j k.
  - destruct k; reflexivity.
  - destruct k as [|k]; cbn [Np.assign_from nth_error option_map].
    + rewrite Nat.add_0_r. reflexivity.
    + rewrite IH. rewrite Nat.add_succ_r. reflexivity.
Qed.

Lemma apply_ranges_nth (rows : list (nat * nat)) (v : list Z) (k : nat) :
  nth_error (apply_ranges rows v) k =
  option_map (fun y => if covered rows k then 0 else y) (nth_error v k).
Proof.
  revert v. induction rows as [|row rows IH]; intros v.
  - cbn. destruct (nth_error v k); reflexivity.
  - change (apply_ranges (row :: rows) v)
      with (apply_ranges rows (Np.slice_assign v (fst row) (snd row) 0)).
    rewrite IH. unfold Np.slice_assign. rewrite assign_from_nth.
    cbn [Nat.add covered existsb].
    destruct (nth_error v k); cbn [option_map]; [|reflexivity].
    fold (covered rows k).
    destruct ((fst row <=? k)%nat && (k <? snd row)%nat);
      destruct (covered rows k); reflexivity.
Qed.

(** X3: the vector the function returns has the length of the input, and
    its entry at epoch [k] is 0 when [k] lies in one of the recorded ranges
    [[start, end)] and 1 otherwise. *)
Theorem X3_mask_zero_exactly_on_ranges
        (calculate_vector_magnitude : list epoch -> bool -> bool -> list Z)
        (time : list Z) (print_output : bool)
        (data : list epoch) (cfg : config) (use_vector_magnitude : bool)
        (m : list Z) :
  mask_of (choi_2011_calculate_non_wear_time
             calculate_vector_magnitude time print_output
             data cfg use_vector_magnitude) = Some m ->
  exists st,
    find_non_wear_periods
      (if use_vector_magnitude
       then calculate_vector_magnitude data false false
       else axis1 data) cfg = Ok st /\
    length m = length data /\
    forall k, (k < length data)%nat ->
              nth_error m k = Some (if covered (ranges st) k then 0 else 1).
Proof.
  intros Hm. apply choi_mask in Hm. destruct Hm as (st & Hrun & ->).
  exists st. split; [exact Hrun|]. split.
  - rewrite apply_ranges_length. unfold Np.ones. apply repeat_length.
  - intros k Hk. rewrite apply_ranges_nth. unfold Np.ones.
    rewrite nth_error_repeat by exact Hk. reflexivity.
Qed.

Lemma X3_witness :
  exists st,
    find_non_wear_periods
      (axis1 (on_axis1 two_close_spikes)) default_config = Ok st /\
    length (repeat 0 100 ++ [1; 1; 1]) = length (on_axis1 two_close_spikes) /\
    nth_error (repeat 0 100 ++ [1; 1; 1]) 99
    = Some (if covered (ranges st) 99 then 0 else 1).
Proof.
  destruct (X3_mask_zero_exactly_on_ranges
              floor_vector_magnitude [] false
              (on_axis1 two_close_spikes) default_config false
              (repeat 0 100 ++ [1; 1; 1]))
    as (st & Hrun & Hlen & Hnth).
  - vm_compute. reflexivity.
  - exists st. split; [exact Hrun|]. split; [exact Hlen|].
    apply Hnth. apply Nat.ltb_lt. vm_compute. reflexivity.
Defined.

Lemma sorted_pairs {A : Type} (R : A -> A -> Prop) (l : list A) (a b : A) :
  StronglySorted R l -> In a l -> In b l -> a = b \/ R a b \/ R b a.
Proof.
  induction 1 as [|c l Hs IH Hc]; intros Ha Hb; [destruct Ha|].
  rewrite Forall_forall in Hc.
  destruct Ha as [-> | Ha]; destruct Hb as [-> | Hb]; auto.
Qed.

Lemma covered_false_iff (rows : list (nat * nat)) (k : nat) :
  covered rows k = false <->
  forall r, In r rows -> ~ ((fst r <= k)%nat /\ (k < snd r)%nat).
Proof.
  unfold covered. split.
  - intros Hcov r Hin [Hlo Hhi].
    assert (Htrue : existsb (fun row => (fst row <=? k)%nat
                                        && (k <? snd row)%nat) rows = true).
    { apply existsb_exists. exists r. split; [exact Hin|].
      apply andb_true_iff. split; [apply Nat.leb_le | apply Nat.ltb_lt];
        assumption. }
    congruence.
  - intros Hnone.
    destruct (existsb _ rows) eqn:E; [|reflexivity].
    apply existsb_exists in E. destruct E as (r & Hin & Htest).
    apply andb_true_iff in Htest. destruct Htest as [Hlo Hhi].
    apply Nat.leb_le in Hlo. apply Nat.ltb_lt in Hhi.
    destruct (Hnone r Hin). split; assumption.
Qed.

(** X4: in the vector built from the recorded ranges, the first epoch of
    every range is 0 and the epoch at which the range was closed is 1: the
    closing spike is never part of a non-wear interval, its own or another. *)
Theorem X4_closing_epoch_stays_worn (data : list Z) (cfg : config) :
  exists st,
    find_non_wear_periods data cfg = Ok st /\
    Forall (fun r =>
              nth_error (apply_ranges (ranges st) (Np.ones (length data)))
                        (fst r) = Some 0 /\
              nth_error (apply_ranges (ranges st) (Np.ones (length data)))
                        (snd r) = Some 1)
           (ranges st).
Proof.
  destruct (find_non_wear_periods_inv data cfg) as (st & Hrun & Hinv).
  exists st. split; [exact Hrun|].
  destruct Hinv as [Hr Hs _ _ _].
  apply Forall_forall. intros r Hin.
  assert (Hok := Hr). rewrite Forall_forall in Hok.
  destruct (Hok r Hin) as (Hlt & _ & Hend).
  rewrite !apply_ranges_nth. unfold Np.ones.
  rewrite !nth_error_repeat by lia. cbn [option_map]. split.
  - replace (covered (ranges st) (fst r)) with true; [reflexivity|].
    symmetry. apply existsb_exists. exists r. split; [exact Hin|].
    apply andb_true_iff. split; [apply Nat.leb_le | apply Nat.ltb_lt]; lia.
  - replace (covered (ranges st) (snd r)) with false; [reflexivity|].
    symmetry. apply covered_false_iff. intros r' Hin' [Hlo Hhi].
    destruct (Hok r' Hin') as (Hlt' & _ & _).
    destruct (sorted_pairs before (ranges st) r r' Hs Hin Hin')
      as [<- | [Hb | Hb]]; unfold before in *; lia.
Qed.

(** * What is logged *)

Lemma index_nth (l : list Z) (i : nat) (t : Z) :
  Py.index l i = Ok t -> t = nth i l 0.
Proof.
  unfold Py.index. destruct (nth_error l i) as [y|] eqn:E; [|discriminate].
  intros H. injection H as <-. symmetry. apply nth_error_nth. exact E.
Qed.

Lemma write_ranges_log (time : list Z) (print_output : bool) (data : list Z)
      (rows : list (nat * nat)) :
  forall v log v' log',
    write_ranges time print_output data rows v log = Ok (v', log') ->
    log' = log ++ (if print_output
                   then flat_map (debug_entries time data) rows
                   else []).
Proof.
  induction rows as [|row rows IH]; intros v log v' log' H;
    cbn [write_ranges] in H.
  - injection H as _ <-. destruct print_output; cbn; rewrite app_nil_r;
      reflexivity.
  - unfold log_row in H. destruct print_output.
    + destruct (Py.index time (fst row)) as [t0|] eqn:E0;
        [|discriminate H].
      destruct (Py.index time (snd row)) as [t1|] eqn:E1;
        [|discriminate H].
      cbn [bind] in H. apply IH in H. subst log'.
      apply index_nth in E0. apply index_nth in E1. subst t0 t1.
      cbn [flat_map]. unfold debug_entries at 2.
      rewrite <- app_assoc. reflexivity.
    + cbn [bind] in H. apply IH in H. subst log'.
      rewrite !app_nil_r. reflexivity.
Qed.

(** X5: when the function returns, its log is the length diagnostic (one
    entry when the input is shorter than [min_period_len], none otherwise)
    followed, with [print_output] on, by three entries for each recorded
    range in order: its indices and duration, the timestamps of its two
    ends, and its counts; with [print_output] off nothing else is logged. *)
Theorem X5_log_is_diagnostic_then_ranges
        (calculate_vector_magnitude : list epoch -> bool -> bool -> list Z)
        (time : list Z) (print_output : bool)
        (data : list epoch) (cfg : config) (use_vector_magnitude : bool)
        (v : list Z) (log : list log_event) :
  choi_2011_calculate_non_wear_time
    calculate_vector_magnitude time print_output data cfg use_vector_magnitude
  = Ok (v, log) ->
  let counts := if use_vector_magnitude
                then calculate_vector_magnitude data false false
                else axis1 data in
  exists st,
    find_non_wear_periods counts cfg = Ok st /\
    log = length_diagnostic (length data) cfg
          ++ (if print_output
              then flat_map (debug_entries time counts) (ranges st)
              else []).
Proof.
  unfold choi_2011_calculate_non_wear_time. cbv zeta. intros H.
  destruct (find_non_wear_periods _ cfg) as [st|]; [|discriminate H].
  cbn [bind] in H. exists st. split; [reflexivity|].
  apply write_ranges_log in H. exact H.
Qed.

Lemma X5_witness :
  exists st,
    find_non_wear_periods (axis1 (on_axis1 two_close_spikes)) default_config
    = Ok st /\
    [ LogRange 0 100 100; LogTime 7 7;
      LogValues (repeat 0 100) ]
    = length_diagnostic (length (on_axis1 two_close_spikes)) default_config
      ++ flat_map (debug_entries (repeat 7 103)
                                 (axis1 (on_axis1 two_close_spikes)))
                  (ranges st).
Proof.
  apply (X5_log_is_diagnostic_then_ranges
           floor_vector_magnitude (repeat 7 103) true
           (on_axis1 two_close_spikes) default_config false
           (repeat 0 100 ++ [1; 1; 1])
           [ LogRange 0 100 100; LogTime 7 7; LogValues (repeat 0 100) ]).
  vm_compute. reflexivity.
Defined.

(** * The axes *)

(** X6: without [use_vector_magnitude] the function reads the first axis
    only: two inputs that agree on axis 1 give the same result, vector and
    log, whatever their axes 2 and 3. *)
Theorem X6_only_first_axis_is_read
        (calculate_vector_magnitude : list epoch -> bool -> bool -> list Z)
        (time : list Z) (print_output : bool)
        (data1 data2 : list epoch) (cfg : config) :
  axis1 data1 = axis1 data2 ->
  choi_2011_calculate_non_wear_time
    calculate_vector_magnitude time print_output data1 cfg false
  = choi_2011_calculate_non_wear_time
      calculate_vector_magnitude time print_output data2 cfg false.
Proof.
  intros Haxis.
  assert (Hlen : length data1 = length data2)
    by (rewrite <- (axis1_length data1), <- (axis1_length data2), Haxis;
        reflexivity).
  unfold choi_2011_calculate_non_wear_time.
  rewrite Haxis, Hlen. reflexivity.
Qed.

Lemma X6_witness :
  choi_2011_calculate_non_wear_time
    floor_vector_magnitude [] false [(0, 1, 2); (5, 3, 4)] default_config false
  = choi_2011_calculate_non_wear_time
      floor_vector_magnitude [] false [(0, 9, 9); (5, 0, 0)] default_config
      false.
Proof.
  apply (X6_only_first_axis_is_read
           floor_vector_magnitude [] false
           [(0, 1, 2); (5, 3, 4)] [(0, 9, 9); (5, 0, 0)] default_config).
  reflexivity.
Defined.

(** * Single epochs of the scan *)

Lemma state_before_ends (data : list Z) (cfg : config) (paxn : nat) (st : state) :
  (paxn <= length data)%nat ->
  state_before data cfg paxn = Ok st ->
  scan_inv cfg paxn st /\ ends_inv data st.
Proof.
  intros Hle Hst. unfold state_before in Hst.
  destruct (for_each_seq_invariant (loop_body data cfg)
              (fun n st => scan_inv cfg n st /\ ends_inv data st) paxn)
    with (k := paxn) (a := 0%nat) (st := init_state)
    as (st' & Hrun & Hinv).
  - intros n st0 Hn [Hinv Hends].
    destruct (loop_body_inv data cfg n st0 ltac:(lia) Hinv)
      as (st1 & Hbody & Hinv1).
    exists st1. split; [exact Hbody|]. split; [exact Hinv1|].
    apply (loop_body_ends data cfg n st0 st1);
      [lia | exact Hinv | exact Hends | exact Hbody].
  - reflexivity.
  - split; [apply scan_inv_init|].
    constructor; cbn; [constructor | discriminate].
  - rewrite Hst in Hrun. injection Hrun as <-. exact Hinv.
Qed.

(** X7: a spike of an open period whose two windows are clean leaves the
    period open, with its start and the ranges unchanged and nothing
    scheduled, unless it is the third spike in a row. *)
Theorem X7_clean_spike_is_tolerated
        (data : list Z) (cfg : config) (paxn : nat) (x : Z) (st st' : state) :
  state_before data cfg paxn = Ok st ->
  nth_error data paxn = Some x ->
  0 < x ->
  period_open paxn x st = true ->
  window_check_fails data cfg paxn = false ->
  loop_body data cfg st paxn = Ok st' ->
  cnt_non_zero st' <> 3%nat ->
  start st' = true /\ reset st' = false /\ stopped st' = false /\
  window_2_invalid st' = false /\ ranges st' = ranges st /\
  strt_nw st' = strt_nw (open_period paxn x (reset_counters st)).
Proof.
  intros Hst Hx Hpos Hopen Hclean Hbody Hcnt.
  assert (Hn : (paxn < length data)%nat)
    by (apply nth_error_Some; congruence).
  assert (Hinv := state_before_inv data cfg paxn st ltac:(lia) Hst).
  destruct (enter_iteration cfg paxn x st Hinv)
    as (sta & s & e & c & Heq & Hfacts).
  unfold period_open in Hopen. rewrite Heq in Hopen. cbn [start] in Hopen.
  subst sta. destruct (Hfacts eq_refl) as (Hsn & Hnew & _).
  assert (Hlt : (s < paxn)%nat).
  { destruct (Nat.eq_dec s paxn) as [E|E]; [|lia].
    destruct (Hnew E) as [Hx0 _]. lia. }
  unfold loop_body, Py.index in Hbody. rewrite Hx in Hbody.
  cbn [bind] in Hbody. rewrite Heq in Hbody. cbn [start] in Hbody.
  rewrite started_block_spike in Hbody by assumption.
  rewrite Hclean, orb_false_r in Hbody. rewrite Heq. cbn [strt_nw].
  destruct (c + 1 =? 3)%nat eqn:Ec.
  - apply Nat.eqb_eq in Ec.
    destruct (Z.of_nat (paxn - s) <? min_period_len cfg);
      injection Hbody as <-; cbn [cnt_non_zero] in Hcnt; contradiction.
  - injection Hbody as <-. cbn. repeat split; reflexivity.
Qed.

Lemma X7_witness :
  let st' := mkState false false true false 0 0 1 [] in
  start st' = true /\ reset st' = false /\ stopped st' = false /\
  window_2_invalid st' = false /\ ranges st' = [] /\
  strt_nw st' = 0%nat.
Proof.
  apply (X7_clean_spike_is_tolerated
           tolerated_spike default_config 100 50
           (mkState false false true false 0 0 0 [])
           (mkState false false true false 0 0 1 []));
    try (vm_compute; reflexivity).
  cbn. lia.
Defined.

Lemma open_period_zero (paxn : nat) (st : state) :
  start (open_period paxn 0 st) = true.
Proof.
  unfold open_period. destruct st as [rs sp sta w2 s e c rg].
  destruct sta; reflexivity.
Qed.

(** X8: an epoch with count 0 never closes a period: after it a period is
    open (the one that was, or one that starts at this epoch), the spike
    counter is 0, nothing is scheduled, and the ranges are unchanged. *)
Theorem X8_zero_epoch_keeps_period_open
        (data : list Z) (cfg : config) (paxn : nat) (st st' : state) :
  state_before data cfg paxn = Ok st ->
  nth_error data paxn = Some 0 ->
  loop_body data cfg st paxn = Ok st' ->
  start st' = true /\ (strt_nw st' <= paxn)%nat /\
  cnt_non_zero st' = 0%nat /\
  reset st' = false /\ stopped st' = false /\ window_2_invalid st' = false /\
  ranges st' = ranges st.
Proof.
  intros Hst Hx Hbody.
  assert (Hn : (paxn < length data)%nat)
    by (apply nth_error_Some; congruence).
  assert (Hinv := state_before_inv data cfg paxn st ltac:(lia) Hst).
  destruct (enter_iteration cfg paxn 0 st Hinv)
    as (sta & s & e & c & Heq & Hfacts).
  assert (Hopen := open_period_zero paxn (reset_counters st)).
  rewrite Heq in Hopen. cbn [start] in Hopen. subst sta.
  destruct (Hfacts eq_refl) as (Hsn & _ & _).
  unfold loop_body, Py.index in Hbody. rewrite Hx in Hbody.
  cbn [bind] in Hbody. rewrite Heq in Hbody. cbn [start] in Hbody.
  rewrite started_block_eq in Hbody. cbv zeta in Hbody.
  rewrite (last_value_trigger_false data paxn Hn) in Hbody.
  cbn in Hbody. injection Hbody as <-. cbn. repeat split; auto.
Qed.

Lemma X8_witness :
  let st' := mkState false false true false 0 0 0 [] in
  start st' = true /\ (strt_nw st' <= 101)%nat /\
  cnt_non_zero st' = 0%nat /\
  reset st' = false /\ stopped st' = false /\ window_2_invalid st' = false /\
  ranges st' = [].
Proof.
  apply (X8_zero_epoch_keeps_period_open
           tolerated_spike default_config 101
           (mkState false false true false 0 0 1 [])
           (mkState false false true false 0 0 0 []));
    vm_compute; reflexivity.
Defined.

(** X9: an epoch with a negative count is neither a zero nor a spike: it
    opens no period, counts no spike, runs no window check and closes
    nothing; the iteration only carries out the reset that was scheduled. *)
Theorem X9_negative_epoch_changes_nothing
        (data : list Z) (cfg : config) (paxn : nat) (x : Z) (st st' : state) :
  state_before data cfg paxn = Ok st ->
  nth_error data paxn = Some x ->
  x < 0 ->
  loop_body data cfg st paxn = Ok st' ->
  st' = reset_counters st.
Proof.
  intros Hst Hx Hneg Hbody.
  assert (Hn : (paxn < length data)%nat)
    by (apply nth_error_Some; congruence).
  destruct (state_before_ends data cfg paxn st ltac:(lia) Hst)
    as [Hinv Hends].
  destruct (enter_iteration cfg paxn x st Hinv)
    as (sta & s & e & c & Heq & Hfacts).
  assert (Hsame : open_period paxn x (reset_counters st) = reset_counters st).
  { unfold open_period.
    replace (x =? 0) with false by (symmetry; apply Z.eqb_neq; lia).
    reflexivity. }
  unfold loop_body, Py.index in Hbody. rewrite Hx in Hbody.
  cbn [bind] in Hbody. rewrite Heq in Hbody. cbn [start] in Hbody.
  rewrite <- Hsame, Heq.
  destruct sta; [|injection Hbody as <-; reflexivity].
  assert (Hc : (c <= 2)%nat).
  { destruct Hends as [_ Hop]. destruct Hinv as [_ _ Hi _ _].
    rewrite Hsame in Heq. unfold reset_counters in Heq.
    destruct (reset st || stopped st) eqn:Ep; [discriminate Heq|].
    destruct (Hop ltac:(rewrite Heq; reflexivity) eq_refl) as [_ Hle].
    rewrite Heq in Hle. exact Hle. }
  rewrite started_block_eq in Hbody. cbv zeta in Hbody.
  rewrite (last_value_trigger_false data paxn Hn) in Hbody.
  replace (x =? 0) with false in Hbody by (symmetry; apply Z.eqb_neq; lia).
  replace (x >? 0) with false in Hbody
    by (symmetry; destruct (x >? 0) eqn:E;
        [apply Z.gtb_lt in E; lia | reflexivity]).
  replace (c =? 3)%nat with false in Hbody
    by (symmetry; apply Nat.eqb_neq; lia).
  cbn [andb orb] in Hbody. injection Hbody as <-. reflexivity.
Qed.

Lemma X9_witness :
  mkState false false true false 0 0 0 []
  = reset_counters (mkState false false true false 0 0 0 []).
Proof.
  apply (X9_negative_epoch_changes_nothing
           [0; -4; 0] default_config 1 (-4)
           (mkState false false true false 0 0 0 [])
           (mkState false false true false 0 0 0 []));
    vm_compute; reflexivity.
Defined.

(** * Where non-wear can be reported *)

(** X10: every epoch the returned vector marks 0 lies in a recorded range,
    at or after an epoch with count 0 and strictly before an epoch with a
    positive count: the epochs after the last positive count of the input
    are never marked. *)
Theorem X10_marked_epoch_precedes_a_spike
        (calculate_vector_magnitude : list epoch -> bool -> bool -> list Z)
        (time : list Z) (print_output : bool)
        (data : list epoch) (cfg : config) (use_vector_magnitude : bool)
        (m : list Z) (k : nat) :
  mask_of (choi_2011_calculate_non_wear_time
             calculate_vector_magnitude time print_output
             data cfg use_vector_magnitude) = Some m ->
  nth_error m k = Some 0 ->
  let counts := if use_vector_magnitude
                then calculate_vector_magnitude data false false
                else axis1 data in
  exists s e x,
    (s <= k)%nat /\ (k < e)%nat /\
    nth_error counts s = Some 0 /\
    nth_error counts e = Some x /\ 0 < x.
Proof.
  intros Hm Hk counts.
  apply choi_mask in Hm. fold counts in Hm. destruct Hm as (st & Hrun & ->).
  destruct (find_non_wear_periods_ends counts cfg)
    as (st0 & Hrun0 & _ & [Hz _]).
  rewrite Hrun in Hrun0. injection Hrun0 as <-.
  rewrite apply_ranges_nth in Hk.
  destruct (nth_error (Np.ones (length data)) k) as [y|] eqn:Ey;
    [|discriminate Hk].
  assert (Hy : y = 1).
  { unfold Np.ones in Ey. apply nth_error_In in Ey.
    apply repeat_spec in Ey. exact Ey. }
  subst y. cbn [option_map] in Hk.
  destruct (covered (ranges st) k) eqn:Ecov; [|discriminate Hk].
  apply existsb_exists in Ecov. destruct Ecov as (r & Hin & Htest).
  apply andb_true_iff in Htest. destruct Htest as [Hlo Hhi].
  apply Nat.leb_le in Hlo. apply Nat.ltb_lt in Hhi.
  rewrite Forall_forall in Hz.
  destruct (Hz r Hin) as [Hzero (x & Hx & Hpos)].
  exists (fst r), (snd r), x. auto.
Qed.

Lemma X10_witness :
  exists s e x,
    (s <= 99)%nat /\ (99 < e)%nat /\
    nth_error (axis1 (on_axis1 two_close_spikes)) s = Some 0 /\
    nth_error (axis1 (on_axis1 two_close_spikes)) e = Some x /\ 0 < x.
Proof.
  apply (X10_marked_epoch_precedes_a_spike
           floor_vector_magnitude [] false
           (on_axis1 two_close_spikes) default_config false
           (repeat 0 100 ++ [1; 1; 1]) 99);
    vm_compute; reflexivity.
Defined.
